(** * multisite-lighthouse-gcp: the Pub/Sub triggered PageSpeed Insights job

    A shallow embedding of [index.js]: the debounce check
    ([checkEventState]), the report fetcher ([getPagespeedInsightsReport]),
    the report writer ([writeLogAndReportsToStorage]), the fan-out publisher
    ([sendAllPubsubMsgs]), the serialiser ([toNdjson]) and the Cloud
    Function itself ([launchPagespeedInsights]).

    JavaScript values are embedded as follows.
    - Numbers that the program handles (epoch milliseconds, the configured
      [minTimeBetweenTriggers]) are integers: [Z].
    - Strings are [string]; a [Buffer] is a [list Byte.byte].
    - An object literal or a parsed JSON object is an association list in
      insertion order ([JsObject]); ids are ordinary property names (not
      [__proto__], and not canonical array indices, which JavaScript
      enumerates first).
    - An [async] function is a computation in the monad [M]: it threads the
      [World] (local scratch files and the ordered trace of every call made
      to the console and to the external services) and either resolves
      with a value or rejects with an [Error].
    - The external services (Cloud Storage, Pub/Sub, PageSpeed Insights,
      BigQuery, the local file system) and the parts of the runtime that the
      program only calls ([JSON.parse], base64 decoding, [uuidv1], the
      clock) are the fields of [Runtime], exactly what the test-suite stubs. *)

From stdpp Require Import base strings list gmap pretty.
From Stdlib Require Import ZArith Lia Ascii String.

Set Warnings "-register-all".

Open Scope Z_scope.
Open Scope string_scope.

(** ** JSON values and [JSON.stringify] *)

Definition JsObject (V : Type) : Type := list (string * V).

Inductive json : Type :=
  | JNull
  | JBool (b : bool)
  | JNum (n : Z)
  | JStr (s : string)
  | JArr (items : list json)
  | JObj (props : list (string * json)).

Definition Obj : Type := JsObject json.

(** [o[k]]: the value of own property [k], [None] standing for [undefined]. *)
Fixpoint prop_get {V} (k : string) (o : JsObject V) : option V :=
  match o with
  | [] => None
  | (k', v) :: rest => if String.eqb k k' then Some v else prop_get k rest
  end.

(** [o[k] = v]: an existing property keeps its place, a new one is added
    last. *)
Fixpoint prop_set {V} (k : string) (v : V) (o : JsObject V) : JsObject V :=
  match o with
  | [] => [(k, v)]
  | (k', v') :: rest =>
      if String.eqb k k' then (k', v) :: rest else (k', v') :: prop_set k v rest
  end.

(** The line feed, written ['\n'] in the source. *)
Definition nl : string := String (ascii_of_nat 10) "".

Definition hex_digit (n : nat) : ascii :=
  match n with
  | 0%nat => "0" | 1%nat => "1" | 2%nat => "2" | 3%nat => "3"
  | 4%nat => "4" | 5%nat => "5" | 6%nat => "6" | 7%nat => "7"
  | 8%nat => "8" | 9%nat => "9" | 10%nat => "a" | 11%nat => "b"
  | 12%nat => "c" | 13%nat => "d" | 14%nat => "e" | _ => "f"
  end%char.

(** QuoteJSONString, one character: the two-character escapes, [\u00xx]
    for the other control characters, the character itself otherwise. *)
Definition quote_char (c : ascii) : string :=
  let n := nat_of_ascii c in
  match n with
  | 8%nat => "\b"
  | 9%nat => "\t"
  | 10%nat => "\n"
  | 12%nat => "\f"
  | 13%nat => "\r"
  | 34%nat => String "\" (String c "")
  | 92%nat => "\\"
  | _ =>
      if (n <? 32)%nat
      then "\u00" ++ String (hex_digit (n / 16)) (String (hex_digit (n mod 16)) "")
      else String c ""
  end.

Fixpoint quote_chars (s : string) : string :=
  match s with
  | EmptyString => ""
  | String c rest => quote_char c ++ quote_chars rest
  end.

Definition dquote : string := String (ascii_of_nat 34) "".

Definition JSON_quote (s : string) : string := dquote ++ quote_chars s ++ dquote.

Fixpoint join (sep : string) (parts : list string) : string :=
  match parts with
  | [] => ""
  | [p] => p
  | p :: rest => p ++ sep ++ join sep rest
  end.

(** SerializeJSONObject / SerializeJSONArray, the common end: [partial] are
    the serialised members, [stepback] the indentation outside and [indent]
    the one inside. *)
Definition JSON_wrap (opening closing gap stepback indent : string)
    (partial : list string) : string :=
  match partial with
  | [] => opening ++ closing
  | _ =>
      if String.eqb gap ""
      then opening ++ join "," partial ++ closing
      else opening ++ nl ++ indent ++ join ("," ++ nl ++ indent) partial
             ++ nl ++ stepback ++ closing
  end.

(** SerializeJSONProperty with the gap [gap] at the indentation [indent]. *)
Fixpoint JSON_serialize (gap indent : string) (j : json) : string :=
  match j with
  | JNull => "null"
  | JBool true => "true"
  | JBool false => "false"
  | JNum n => pretty n
  | JStr s => JSON_quote s
  | JArr items =>
      JSON_wrap "[" "]" gap indent (indent ++ gap)
        (map (JSON_serialize gap (indent ++ gap)) items)
  | JObj props =>
      JSON_wrap "{" "}" gap indent (indent ++ gap)
        (map (fun '(k, v) =>
                JSON_quote k ++ ":" ++ (if String.eqb gap "" then "" else " ")
                  ++ JSON_serialize gap (indent ++ gap) v) props)
  end.

(** [JSON.stringify(v)] *)
Definition JSON_stringify (v : json) : string := JSON_serialize "" "" v.

(** [JSON.stringify(v, null, " ")] *)
Definition JSON_stringify_spaced (v : json) : string := JSON_serialize " " "" v.

(** Conversion to string inside a template literal; [None] is [undefined]. *)
Fixpoint js_toString (j : json) : string :=
  match j with
  | JNull => "null"
  | JBool true => "true"
  | JBool false => "false"
  | JNum n => pretty n
  | JStr s => s
  | JArr items =>
      join "," (map (fun i => match i with JNull => "" | _ => js_toString i end) items)
  | JObj _ => "[object Object]"
  end.

Definition template (v : option json) : string :=
  match v with
  | None => "undefined"
  | Some j => js_toString j
  end.

(** ** [toNdjson] *)

Definition toNdjson (data : json) : string :=
  let data := match data with JArr items => items | _ => [data] end in
  fold_left (fun outNdjson item => outNdjson ++ JSON_stringify item ++ nl) data "".

(** Expected texts are written with an apostrophe for each double quote. *)
Fixpoint lit (s : string) : string :=
  match s with
  | EmptyString => ""
  | String c rest =>
      String (if Nat.eqb (nat_of_ascii c) 39 then ascii_of_nat 34 else c) (lit rest)
  end.


(** ** Configuration ([config.json]) *)

Module Source.
Record t : Type := {
  id : string;
  url : string;
  strategy : string;
  category : option (list string)
}.
End Source.

(** [outputFormat] is [None] when the key is absent from the file. *)
Record Config : Type := {
  source : list Source.t;
  projectId : string;
  datasetId : string;
  pubsubTopicId : string;
  minTimeBetweenTriggers : Z;
  outputFormat : option (list string);
  gcs_bucketName : string
}.

(** ** The world of one invocation *)

Inductive Error : Type := MkError (name message : string).

(** What [file.save] is given: a text or, for the report, the object
    itself. *)
Inductive Body : Type :=
  | BodyText (text : string)
  | BodyObject (obj : Obj).

Inductive ConsoleArg : Type :=
  | ArgText (text : string)
  | ArgError (e : Error).

(** The metadata of the BigQuery load job. *)
Record LoadMetadata : Type := {
  sourceFormat : string;
  schema_fields : json;
  jobId : string
}.

(** Every call that leaves the program, in the order it is made. *)
Inductive Effect : Type :=
  | ConsoleLog (line : string)
  | ConsoleError (arg : ConsoleArg)
  | StorageDownload (bucket file destination : string)
  | StorageSave (bucket file : string) (data : Body) (contentType : option string)
  | PubsubPublish (topic : string) (msg : list Byte.byte)
  | RunPagespeed (req_url req_strategy : string) (req_category : list string)
  | FsWriteFile (path data : string)
  | BigqueryLoad (dataset table file : string) (metadata : LoadMetadata).

Record World : Type := {
  tmp : gmap string string;
  trace : list Effect
}.

(** One record of the debounce state: [{created: <epoch ms>}]. *)
Record EventState : Type := { created : Z }.

(** The runtime and the external services, as the program sees them: each
    field answers one kind of call. [None] from a service means that the
    returned promise resolves; [Some e] that it rejects with [e]. *)
Record Runtime : Type := {
  base64_toString : string -> string;
  uuidv1 : string;
  Date_getTime : Z;
  JSON_parse : string -> Error + JsObject EventState;
  bqSchema : json;
  storage_download : string -> string -> Error + string;
  storage_save : string -> string -> option Error;
  pubsub_publish : string -> list Byte.byte -> option Error;
  pagespeed_runpagespeed : string -> string -> list string -> Error + Obj;
  fs_writeFile : string -> option Error;
  bigquery_load : string -> string -> string -> LoadMetadata -> Error + json
}.

(** ** The monad of [async] functions *)

Inductive Outcome (A : Type) : Type :=
  | Resolved (a : A)
  | Rejected (e : Error).
Arguments Resolved {A} a.
Arguments Rejected {A} e.

Definition M (A : Type) : Type := World -> Outcome A * World.

Definition ret {A} (a : A) : M A := fun w => (Resolved a, w).

Definition throw {A} (e : Error) : M A := fun w => (Rejected e, w).

Definition bind {A B} (m : M A) (k : A -> M B) : M B :=
  fun w =>
    match m w with
    | (Resolved a, w') => k a w'
    | (Rejected e, w') => (Rejected e, w')
    end.

(** [try { m } catch (e) { handler e }] *)
Definition try_catch {A} (m : M A) (handler : Error -> M A) : M A :=
  fun w =>
    match m w with
    | (Resolved a, w') => (Resolved a, w')
    | (Rejected e, w') => handler e w'
    end.

Notation "'let*' x ':=' m 'in' k" := (bind m (fun x => k))
  (at level 10, x name, m at level 100, k at level 200).
Notation "m '>>' k" := (bind m (fun _ => k))
  (at level 100, k at level 200, right associativity).

Definition emit (e : Effect) : M unit :=
  fun w => (Resolved tt, {| tmp := tmp w; trace := (trace w ++ [e])%list |}).

(** [await p] for a promise already settled with [r]. *)
Definition await (r : option Error) : M unit :=
  match r with
  | Some e => throw e
  | None => ret tt
  end.

(** [Promise.all] over promises that settle in the order in which they
    were made, as the stubbed services do: the first rejection, if any. *)
Fixpoint first_rejection (rs : list (option Error)) : option Error :=
  match rs with
  | [] => None
  | Some e :: _ => Some e
  | None :: rest => first_rejection rest
  end.

Fixpoint mapM {A B} (f : A -> M B) (l : list A) : M (list B) :=
  match l with
  | [] => ret []
  | a :: rest =>
      let* b := f a in
      let* bs := mapM f rest in
      ret (b :: bs)
  end.

Definition log (line : string) : M unit := emit (ConsoleLog line).

Definition console_error (arg : ConsoleArg) : M unit := emit (ConsoleError arg).

(** [Math.round(n / 1000)] on an integer [n]: the nearest integer, a half
    going up. *)
Definition Math_round_div1000 (n : Z) : Z := (n + 500) / 1000.

(** ** Calls to the services *)

Section Program.

Variable rt : Runtime.
Variable config : Config.

(** [storage.bucket(b).file(f).download({destination})] *)
Definition download (bucket file destination : string) : M unit :=
  emit (StorageDownload bucket file destination) >>
  fun w =>
    match storage_download rt bucket file with
    | inl e => (Rejected e, w)
    | inr content =>
        (Resolved tt, {| tmp := <[destination := content]> (tmp w); trace := trace w |})
    end.

Definition readFile (path : string) : M string :=
  fun w =>
    match tmp w !! path with
    | Some content => (Resolved content, w)
    | None => (Rejected (MkError "Error" "ENOENT: no such file or directory"), w)
    end.

Definition writeFile (path data : string) : M unit :=
  emit (FsWriteFile path data) >>
  fun w =>
    match fs_writeFile rt path with
    | Some e => (Rejected e, w)
    | None => (Resolved tt, {| tmp := <[path := data]> (tmp w); trace := trace w |})
    end.

(** [storage.bucket(b).file(f).save(data, {metadata: {contentType}})]: the
    call is made at once; the result is how its promise settles. *)
Definition save_call (bucket file : string) (data : Body)
    (contentType : option string) : M (option Error) :=
  emit (StorageSave bucket file data contentType) >>
  ret (storage_save rt bucket file).

(** [pubsub.topic(t).publisher().publish(msg)], likewise. *)
Definition publish_call (topic : string) (msg : list Byte.byte) : M (option Error) :=
  emit (PubsubPublish topic msg) >>
  ret (pubsub_publish rt topic msg).

Definition runpagespeed (url strategy : string) (category : list string) : M Obj :=
  emit (RunPagespeed url strategy category) >>
  match pagespeed_runpagespeed rt url strategy category with
  | inl e => throw e
  | inr psi => ret psi
  end.

Definition load (dataset table file : string) (metadata : LoadMetadata) : M json :=
  emit (BigqueryLoad dataset table file metadata) >>
  match bigquery_load rt dataset table file metadata with
  | inl e => throw e
  | inr response => ret response
  end.

(** ** [getPagespeedInsightsReport] *)

Definition getPagespeedInsightsReport (id url strategy : string)
    (category : option (list string)) : M Obj :=
  log (id ++ ": Requesting Pagespeed Insight report for " ++ url ++ " on " ++ strategy) >>
  let category := default [] category in
  let* psi := runpagespeed url strategy category in
  let psi := prop_set "id" (JStr id) psi in
  let psi := prop_set "url" (JStr url) psi in
  let psi := prop_set "emulatedFormFactor" (JStr strategy) psi in
  log (id ++ ": Pagespeed Insight report received for " ++ url ++ " on " ++ strategy) >>
  ret psi.

(** ** [sendAllPubsubMsgs] *)

(** [Buffer.from(id)] *)
Definition Buffer_from (s : string) : list Byte.byte := list_byte_of_string s.

(** One callback of [ids.map], up to its [await]: the message is built, the
    first line is logged and the publish is under way. *)
Definition publish_start (id : string) : M (string * option Error) :=
  let msg := Buffer_from id in
  log (id ++ ": Sending init PubSub message") >>
  let* r := publish_call (pubsubTopicId config) msg in
  ret (id, r).

(** The same callback after its [await]: the second line is logged when the
    publish resolved. *)
Definition publish_finish (started : string * option Error) : M unit :=
  match snd started with
  | None => log (fst started ++ ": Init PubSub message sent")
  | Some _ => ret tt
  end.

(** [await Promise.all(ids.map(async (id) => ...))]: [map] runs every
    callback up to its [await], in the order of [ids], before any publish
    settles; the callbacks then resume in that order. *)
Definition sendAllPubsubMsgs (ids : list string) : M (list unit) :=
  let* started := mapM publish_start ids in
  let* done := mapM publish_finish started in
  await (first_rejection (map snd started)) >>
  ret done.

(** ** [writeLogAndReportsToStorage] *)

(** One callback of [config.outputFormat.map]: the [switch] sets [output]
    for ['json'] only (['csv'] breaks, anything else lands in [default]);
    the result is how the save settles, [None] also when nothing is
    saved. *)
Definition report_start (obj : Obj) (id fileType : string) : M (option Error) :=
  let filePath :=
    id ++ "/" ++ template (prop_get "emulatedFormFactor" obj)
       ++ "/report_" ++ template (prop_get "analysisUTCTimestamp" obj) in
  let '(mimetype, filePath, output) :=
    if String.eqb fileType "csv" then (None, filePath, false)
    else if String.eqb fileType "json"
         then (Some "application/json", filePath ++ ".json", true)
         else (None, filePath, false) in
  if output
  then
    log (id ++ ": Writing " ++ fileType ++ " report to bucket " ++ gcs_bucketName config) >>
    save_call (gcs_bucketName config) filePath (BodyObject obj) mimetype
  else ret None.

(** [config.outputFormat = config.outputFormat || []] only replaces an
    absent list by the empty one, which later invocations read the same
    way: the configuration stays a constant here. *)
Definition writeLogAndReportsToStorage (obj : Obj) (id : string) : M unit :=
  let outputFormat := default [] (outputFormat config) in
  let* settled := mapM (report_start obj id) outputFormat in
  await (first_rejection settled) >>
  let file :=
    id ++ "/" ++ template (prop_get "emulatedFormFactor" obj)
       ++ "/log_" ++ template (prop_get "analysisUTCTimestamp" obj) ++ ".json" in
  log (id ++ ": Writing log to bucket " ++ gcs_bucketName config) >>
  let* r := save_call (gcs_bucketName config) file
              (BodyText (JSON_stringify_spaced (JObj obj))) (Some "application/json") in
  await r.

(** ** [checkEventState] *)

(** [{active: true, delta}] or [{active: false}]. *)
Inductive EventCheck : Type :=
  | Active (delta : Z)
  | Inactive.

Definition eventStates_json (eventStates : JsObject EventState) : json :=
  JObj (map (fun '(k, r) => (k, JObj [("created", JNum (created r))])) eventStates).

Definition state_file (id strategy : string) : string :=
  id ++ "/" ++ strategy ++ "/state.json".

Definition state_destination (id strategy : string) : string :=
  "/tmp/state_" ++ id ++ "_" ++ strategy ++ ".json".

(** The [try] block: download the state file, read it back and parse it. *)
Definition readEventStates (id strategy : string) : M (JsObject EventState) :=
  let destination := state_destination id strategy in
  download (gcs_bucketName config) (state_file id strategy) destination >>
  let* buffer := readFile destination in
  match JSON_parse rt buffer with
  | inl e => throw e
  | inr parsed => ret parsed
  end.

(** [try { eventStates = ... } catch(e) {}]: on any error [eventStates]
    keeps its initial value [{}]. *)
Definition loadEventStates (id strategy : string) : M (JsObject EventState) :=
  try_catch (readEventStates id strategy) (fun _ => ret []).

(** [id in eventStates && (timeNow - eventStates[id].created)]: [None] is
    the value [false]. *)
Definition event_delta (id : string) (timeNow : Z) (eventStates : JsObject EventState)
    : option Z :=
  match prop_get id eventStates with
  | None => None
  | Some r => Some (timeNow - created r)
  end.

(** [delta && delta < config.minTimeBetweenTriggers]: [false] and [0] are
    falsy. *)
Definition recently_triggered (delta : option Z) : bool :=
  match delta with
  | None => false
  | Some d => negb (Z.eqb d 0) && Z.ltb d (minTimeBetweenTriggers config)
  end.

(** On the active path [delta] is a number, the one that is rounded. *)
Definition checkEventState (id strategy : string) (timeNow : Z) : M EventCheck :=
  let* eventStates := loadEventStates id strategy in
  let delta := event_delta id timeNow eventStates in
  if recently_triggered delta
  then ret (Active (Math_round_div1000 (default 0 delta)))
  else
    let eventStates := prop_set id {| created := timeNow |} eventStates in
    let* r := save_call (gcs_bucketName config) (state_file id strategy)
                (BodyText (JSON_stringify_spaced (eventStates_json eventStates)))
                (Some "application/json") in
    await r >>
    ret Inactive.

(** ** [launchPagespeedInsights] *)

Record PubsubEvent : Type := { data : string }.

Inductive Returned : Type :=
  | RetUndefined
  | RetAll (results : list unit)
  | RetLoad (response : json).

(** How the [try] block is left: with a value, or with a promise that is
    returned as it is, not awaited inside the block. *)
Inductive Completion : Type :=
  | Return (v : Returned)
  | ReturnPromise (p : M Returned).

Definition includes (x : string) (l : list string) : bool := existsb (String.eqb x) l.

Definition launch_body (event : PubsubEvent) : M Completion :=
  let source := source config in
  let msg := base64_toString rt (data event) in
  let ids := map Source.id source in
  let uuid := uuidv1 rt in
  let metadata :=
    {| sourceFormat := "NEWLINE_DELIMITED_JSON";
       schema_fields := bqSchema rt;
       jobId := uuid |} in
  if negb (String.eqb msg "all") && negb (includes msg ids)
  then console_error (ArgText "No valid message found!") >> ret (Return RetUndefined)
  else
  if String.eqb msg "all"
  then ret (ReturnPromise (let* rs := sendAllPubsubMsgs ids in ret (RetAll rs)))
  else
  match List.filter (fun obj => String.eqb (Source.id obj) msg) source with
  | [] => throw (MkError "TypeError" "Cannot read property 'id' of undefined")
  | src :: _ =>
      let id := Source.id src in
      let url := Source.url src in
      let device := Source.strategy src in
      let category := Source.category src in
      log (id ++ ": Received message to start with URL " ++ url ++ " on " ++ device) >>
      let timeNow := Date_getTime rt in
      let* eventState := checkEventState id device timeNow in
      match eventState with
      | Active delta =>
          log (id ++ ": Found active event on " ++ device ++ " (" ++ pretty delta
                  ++ "s < " ++ pretty (Math_round_div1000 (minTimeBetweenTriggers config))
                  ++ "s), aborting...") >>
          ret (Return RetUndefined)
      | Inactive =>
          let* json := getPagespeedInsightsReport id device url None in
          writeLogAndReportsToStorage json id >>
          let json := prop_set "job_id" (JStr uuid) json in
          writeFile ("/tmp/" ++ uuid ++ ".json") (toNdjson (JObj json)) >>
          log (id ++ ": BigQuery job with ID " ++ uuid ++ " starting for " ++ url
                  ++ " on " ++ device) >>
          ret (ReturnPromise
                 (let* response := load (datasetId config) "reports"
                                     ("/tmp/" ++ uuid ++ ".json") metadata in
                  ret (RetLoad response)))
      end
  end.

Definition launchPagespeedInsights (event : PubsubEvent) : M Returned :=
  let* completion :=
    try_catch (launch_body event)
      (fun e => console_error (ArgError e) >> ret (Return RetUndefined)) in
  match completion with
  | Return v => ret v
  | ReturnPromise p => p
  end.

(** ** The decoded trigger and the configured ids *)

Definition trigger_message (event : PubsubEvent) : string :=
  base64_toString rt (data event).

Definition configured_ids : list string := map Source.id (source config).

(** ** What the services answer to the debounce check *)

(** The state that the bucket holds for [id] and [strategy], or the error
    of its download or of its parsing. *)
Definition stored_states (id strategy : string) : Error + JsObject EventState :=
  match storage_download rt (gcs_bucketName config) (state_file id strategy) with
  | inl e => inl e
  | inr content => JSON_parse rt content
  end.

Definition loaded_states (id strategy : string) : JsObject EventState :=
  match stored_states id strategy with
  | inl _ => []
  | inr eventStates => eventStates
  end.

Definition download_effect (id strategy : string) : Effect :=
  StorageDownload (gcs_bucketName config) (state_file id strategy)
    (state_destination id strategy).

(** The save of the state in which [id] was created at [timeNow]. *)
Definition state_save_effect (id strategy : string) (timeNow : Z)
    (eventStates : JsObject EventState) : Effect :=
  StorageSave (gcs_bucketName config) (state_file id strategy)
    (BodyText (JSON_stringify_spaced
                 (eventStates_json (prop_set id {| created := timeNow |} eventStates))))
    (Some "application/json").

(** ** The objects of the report writer *)

(** [{id}/{formFactor}/report_{timestamp}.json] *)
Definition report_file (obj : Obj) (id : string) : string :=
  id ++ "/" ++ template (prop_get "emulatedFormFactor" obj)
     ++ "/report_" ++ template (prop_get "analysisUTCTimestamp" obj) ++ ".json".

(** [{id}/{formFactor}/log_{timestamp}.json] *)
Definition log_file (obj : Obj) (id : string) : string :=
  id ++ "/" ++ template (prop_get "emulatedFormFactor" obj)
     ++ "/log_" ++ template (prop_get "analysisUTCTimestamp" obj) ++ ".json".

Definition report_object (obj : Obj) (id : string) : string * string * Body :=
  (gcs_bucketName config, report_file obj id, BodyObject obj).

Definition log_object (obj : Obj) (id : string) : string * string * Body :=
  (gcs_bucketName config, log_file obj id, BodyText (JSON_stringify_spaced (JObj obj))).

(** What one configured format adds to the trace: a line and a save for
    [json], nothing for the others. *)
Definition report_effects (obj : Obj) (id fileType : string) : list Effect :=
  if String.eqb fileType "json"
  then [ConsoleLog (id ++ ": Writing " ++ fileType ++ " report to bucket "
                       ++ gcs_bucketName config);
        StorageSave (gcs_bucketName config) (report_file obj id) (BodyObject obj)
          (Some "application/json")]
  else [].

(** ** What the fan-out is expected to do, id by id *)

Definition publish_settles (id : string) : option Error :=
  pubsub_publish rt (pubsubTopicId config) (Buffer_from id).

Definition start_effects (id : string) : list Effect :=
  [ConsoleLog (id ++ ": Sending init PubSub message");
   PubsubPublish (pubsubTopicId config) (Buffer_from id)].

Definition finish_effects (id : string) : list Effect :=
  match publish_settles id with
  | None => [ConsoleLog (id ++ ": Init PubSub message sent")]
  | Some _ => []
  end.

End Program.

(** ** A concrete configuration and stubbed services

    The configuration follows the test-suite's: two sources, [googlesearch]
    first and [ebay] second, JSON reports, the bucket
    [pagespeedinsights-reports]. The services are stubs that resolve, as
    the test-suite's are; [readFile] answers with a state in which
    [googlesearch] was created at [stored_created]. *)

Definition googlesearch : Source.t :=
  {| Source.id := "googlesearch";
     Source.url := "https://www.google.com/";
     Source.strategy := "mobile";
     Source.category := Some ["performance"] |}.

Definition ebay : Source.t :=
  {| Source.id := "ebay";
     Source.url := "https://www.ebay.com/";
     Source.strategy := "desktop";
     Source.category := None |}.

Definition test_config : Config :=
  {| source := [googlesearch; ebay];
     projectId := "multisite-lighthouse-gcp";
     datasetId := "lighthouse";
     pubsubTopicId := "launch-lighthouse";
     minTimeBetweenTriggers := 300000;
     outputFormat := Some ["json"];
     gcs_bucketName := "pagespeedinsights-reports" |}.

Definition mockPsi : Obj :=
  [("analysisUTCTimestamp", JStr "2018-12-17T10:56:56.420Z");
   ("lighthouseResult", JObj [("lighthouseVersion", JStr "5.0.0")])].

(** The stubs: [download_error], [save_error], [publish_error] and
    [load_error] make the corresponding promise reject. *)
Definition stub_runtime (now stored_created : Z)
    (download_error save_error publish_error load_error : option Error) : Runtime :=
  {| base64_toString := fun s => s;
     uuidv1 := "2c5ea4c0-4067-11e9-8bad-9b1deb4d3b7d";
     Date_getTime := now;
     JSON_parse := fun _ => inr [("googlesearch", {| created := stored_created |})];
     bqSchema := JArr [];
     storage_download := fun _ _ =>
       match download_error with
       | Some e => inl e
       | None => inr "state"
       end;
     storage_save := fun _ _ => save_error;
     pubsub_publish := fun _ _ => publish_error;
     pagespeed_runpagespeed := fun _ _ _ => inr mockPsi;
     fs_writeFile := fun _ => None;
     bigquery_load := fun _ _ _ _ =>
       match load_error with
       | Some e => inl e
       | None => inr JNull
       end |}.

Definition ok_runtime (now stored_created : Z) : Runtime :=
  stub_runtime now stored_created None None None None.

Definition not_found : Error := MkError "ApiError" "No such object".

Definition unavailable : Error := MkError "Error" "14 UNAVAILABLE".

(** A configuration in which a source is called [all]. *)
Definition all_config : Config :=
  {| source := [{| Source.id := "all";
                   Source.url := "https://www.example.com/";
                   Source.strategy := "desktop";
                   Source.category := None |}; ebay];
     projectId := "multisite-lighthouse-gcp";
     datasetId := "lighthouse";
     pubsubTopicId := "launch-lighthouse";
     minTimeBetweenTriggers := 300000;
     outputFormat := Some ["json"];
     gcs_bucketName := "pagespeedinsights-reports" |}.

(** The report object of the writer's tests. *)
Definition mockObj : Obj :=
  [("analysisUTCTimestamp", JStr "2018-12-17T10:56:56.420Z");
   ("emulatedFormFactor", JStr "desktop")].

Definition world0 : World := {| tmp := ∅; trace := [] |}.

(** What an invocation adds to the trace, and how it settles. *)
Definition run {A} (m : M A) (w : World) : Outcome A * list Effect :=
  let '(r, w') := m w in (r, drop (List.length (trace w)) (trace w')).

(** ** Reading the trace *)

Definition extend (w : World) (evs : list Effect) : World :=
  {| tmp := tmp w; trace := (trace w ++ evs)%list |}.

(** The messages published, with their topic, in order. *)
Definition published (evs : list Effect) : list (string * list Byte.byte) :=
  flat_map (fun e => match e with PubsubPublish t m => [(t, m)] | _ => [] end) evs.

(** The objects given to Cloud Storage: bucket, file and data, in order. *)
Definition saved (evs : list Effect) : list (string * string * Body) :=
  flat_map (fun e => match e with StorageSave b f d _ => [(b, f, d)] | _ => [] end) evs.

(** The lines given to [console.error]. *)
Definition error_logs (evs : list Effect) : list ConsoleArg :=
  flat_map (fun e => match e with ConsoleError a => [a] | _ => [] end) evs.

(** A call that writes (a save, a publish, a scratch file) or that reaches
    the audit API or the warehouse: everything but the console and the
    read of the debounce state. *)
Definition downstream_call (e : Effect) : bool :=
  match e with
  | ConsoleLog _ | ConsoleError _ | StorageDownload _ _ _ => false
  | StorageSave _ _ _ _ | PubsubPublish _ _ | RunPagespeed _ _ _
  | FsWriteFile _ _ | BigqueryLoad _ _ _ _ => true
  end.

(** A call that only the processing of a single source makes. *)
Definition single_source_call (e : Effect) : bool :=
  match e with
  | ConsoleLog _ | ConsoleError _ | PubsubPublish _ _ => false
  | StorageDownload _ _ _ | StorageSave _ _ _ _ | RunPagespeed _ _ _
  | FsWriteFile _ _ | BigqueryLoad _ _ _ _ => true
  end.

(** ** Further readings of texts and traces *)

(** The number of line feeds in a text. *)
Fixpoint count_nl (s : string) : nat :=
  match s with
  | EmptyString => 0%nat
  | String c rest =>
      ((if Nat.eqb (nat_of_ascii c) 10 then 1 else 0) + count_nl rest)%nat
  end.

(** The records that [toNdjson] serialises: the elements of an array, the
    value itself otherwise. *)
Definition ndjson_items (data : json) : list json :=
  match data with
  | JArr items => items
  | _ => [data]
  end.

(** The scratch file of the load job. *)
Definition scratch_file (rt : Runtime) : string := "/tmp/" ++ uuidv1 rt ++ ".json".

Definition load_metadata (rt : Runtime) : LoadMetadata :=
  {| sourceFormat := "NEWLINE_DELIMITED_JSON";
     schema_fields := bqSchema rt;
     jobId := uuidv1 rt |}.

(** Stubs in which the audit API rejects with [e]. *)
Definition psi_failing_runtime (now stored_created : Z) (e : Error) : Runtime :=
  {| base64_toString := fun s => s;
     uuidv1 := "2c5ea4c0-4067-11e9-8bad-9b1deb4d3b7d";
     Date_getTime := now;
     JSON_parse := fun _ => inr [("googlesearch", {| created := stored_created |})];
     bqSchema := JArr [];
     storage_download := fun _ _ => inr "state";
     storage_save := fun _ _ => None;
     pubsub_publish := fun _ _ => None;
     pagespeed_runpagespeed := fun _ _ _ => inl e;
     fs_writeFile := fun _ => None;
     bigquery_load := fun _ _ _ _ => inr JNull |}.


(** A configuration whose formats are the two placeholders. *)
Definition placeholder_config : Config :=
  {| source := [googlesearch; ebay];
     projectId := "multisite-lighthouse-gcp";
     datasetId := "lighthouse";
     pubsubTopicId := "launch-lighthouse";
     minTimeBetweenTriggers := 300000;
     outputFormat := Some ["csv"; "html"];
     gcs_bucketName := "pagespeedinsights-reports" |}.

(** [m], started in [w], settles with [r] after adding [evs] to the
    trace. *)
Definition adds {A} (m : M A) (w : World) (r : Outcome A) (evs : list Effect) : Prop :=
  exists w', m w = (r, w') /\ trace w' = (trace w ++ evs)%list.

(** The report as the fetcher returns it. *)
Definition annotated (id url strategy : string) (raw : Obj) : Obj :=
  prop_set "emulatedFormFactor" (JStr strategy)
    (prop_set "url" (JStr url) (prop_set "id" (JStr id) raw)).

(** What the save of the log adds to the trace. *)
Definition log_effects (config : Config) (obj : Obj) (id : string) : list Effect :=
  [ConsoleLog (id ++ ": Writing log to bucket " ++ gcs_bucketName config);
   StorageSave (gcs_bucketName config) (log_file obj id)
     (BodyText (JSON_stringify_spaced (JObj obj))) (Some "application/json")].

(** How the save of one configured format settles. *)
Definition report_settles (rt : Runtime) (config : Config) (obj : Obj)
    (id fileType : string) : option Error :=
  if String.eqb fileType "json"
  then storage_save rt (gcs_bucketName config) (report_file obj id)
  else None.

(** ** Basic facts *)

Example toNdjson_single :
  toNdjson (JObj [("a", JNum 1); ("b", JArr [JStr "x"; JNull])])
  = lit "{'a':1,'b':['x',null]}" ++ nl.
Proof. reflexivity. Qed.

Example JSON_stringify_spaced_nested :
  JSON_stringify_spaced (JObj [("ebay", JObj [("created", JNum 5)]); ("l", JArr [])])
  = lit "{" ++ nl ++ lit " 'ebay': {" ++ nl ++ lit "  'created': 5" ++ nl
      ++ " }," ++ nl ++ lit " 'l': []" ++ nl ++ "}".
Proof. reflexivity. Qed.

Lemma append_assoc (a b c : string) : (a ++ b) ++ c = a ++ (b ++ c).
Proof.
  induction a as [|ch a IH]; [reflexivity|].
  change (String ch ((a ++ b) ++ c) = String ch (a ++ b ++ c)).
  now rewrite IH.
Qed.

Lemma append_empty_r (a : string) : a ++ "" = a.
Proof.
  induction a as [|ch a IH]; [reflexivity|].
  change (String ch (a ++ "") = String ch a).
  now rewrite IH.
Qed.

Lemma concat_empty_cons (x : string) (l : list string) :
  String.concat "" (x :: l) = x ++ String.concat "" l.
Proof.
  destruct l as [|y l]; [|reflexivity].
  change (x = x ++ ""). now rewrite append_empty_r.
Qed.

Lemma extend_nil w : extend w [] = w.
Proof. destruct w; unfold extend; simpl. now rewrite app_nil_r. Qed.

Lemma extend_extend w a b : extend (extend w a) b = extend w (a ++ b)%list.
Proof. unfold extend; simpl. now rewrite <- List.app_assoc. Qed.

Lemma emit_extend e w : emit e w = (Resolved tt, extend w [e]).
Proof. reflexivity. Qed.

Lemma run_extend {A} (m : M A) w r evs :
  m w = (r, extend w evs) -> run m w = (r, evs).
Proof.
  intros H. unfold run. rewrite H. simpl. now rewrite drop_app_length.
Qed.

Lemma includes_elem_of x l : includes x l = true <-> x ∈ l.
Proof.
  unfold includes. rewrite existsb_exists, list_elem_of_In. split.
  - intros (y & Hy & Heq). apply String.eqb_eq in Heq. now subst.
  - intros H. exists x. split; [assumption | apply String.eqb_refl].
Qed.

Lemma includes_not_elem_of x l : x ∉ l -> includes x l = false.
Proof.
  intros H. destruct (includes x l) eqn:E; [|reflexivity].
  apply includes_elem_of in E. contradiction.
Qed.

(** ** [toNdjson] *)

Lemma toNdjson_fold (items : list json) (acc : string) :
  fold_left (fun outNdjson item => outNdjson ++ JSON_stringify item ++ nl) items acc
  = acc ++ String.concat "" (map (fun item => JSON_stringify item ++ nl) items).
Proof.
  revert acc. induction items as [|item items IH]; intros acc.
  - simpl. now rewrite append_empty_r.
  - cbn [fold_left map]. rewrite IH, concat_empty_cons. now rewrite append_assoc.
Qed.

(** C9. For an array, [toNdjson] is the concatenation, in order, of the
    JSON text of each element followed by a line feed; the three-item
    array of the test-suite gives its three lines. *)
Theorem toNdjson_array_lines :
  (forall items : list json,
      toNdjson (JArr items)
      = String.concat "" (map (fun item => JSON_stringify item ++ nl) items))
  /\ toNdjson (JArr [JObj [("item1", JStr "value1")];
                     JObj [("item2", JStr "value2")];
                     JObj [("item3", JStr "value3")]])
     = lit "{'item1':'value1'}" ++ nl ++ lit "{'item2':'value2'}" ++ nl
         ++ lit "{'item3':'value3'}" ++ nl.
Proof.
  split; [|reflexivity].
  intros items. unfold toNdjson. now rewrite toNdjson_fold.
Qed.

Section Properties.

Variable rt : Runtime.
Variable config : Config.

(** ** [sendAllPubsubMsgs] *)

Lemma mapM_publish_start ids w :
  mapM (publish_start rt config) ids w
  = (Resolved (map (fun id => (id, publish_settles rt config id)) ids),
     extend w (flat_map (start_effects config) ids)).
Proof.
  revert w. induction ids as [|id ids IH]; intros w.
  - simpl. unfold ret. now rewrite extend_nil.
  - cbn [mapM map flat_map]. unfold bind at 1.
    unfold publish_start at 1, publish_call, log, bind, ret.
    rewrite !emit_extend. rewrite IH, !extend_extend. reflexivity.
Qed.

Lemma mapM_publish_finish ids w :
  mapM (publish_finish) (map (fun id => (id, publish_settles rt config id)) ids) w
  = (Resolved (map (fun _ => tt) ids), extend w (flat_map (finish_effects rt config) ids)).
Proof.
  revert w. induction ids as [|id ids IH]; intros w.
  - simpl. unfold ret. now rewrite extend_nil.
  - cbn [mapM map flat_map]. unfold bind at 1.
    unfold publish_finish at 1, finish_effects at 1. cbn [fst snd].
    destruct (publish_settles rt config id) as [e|].
    + unfold ret at 1. unfold bind. rewrite IH. reflexivity.
    + unfold log. rewrite emit_extend. unfold bind. rewrite IH, extend_extend.
      reflexivity.
Qed.

(** The whole of [sendAllPubsubMsgs]: every callback starts, in the order
    of [ids]; those whose publish resolved log their second line; the
    promise settles as [Promise.all] does. *)
Lemma sendAllPubsubMsgs_spec ids w :
  sendAllPubsubMsgs rt config ids w
  = (match first_rejection (map (publish_settles rt config) ids) with
     | Some e => Rejected e
     | None => Resolved (map (fun _ => tt) ids)
     end,
     extend w (flat_map (start_effects config) ids ++ flat_map (finish_effects rt config) ids)%list).
Proof.
  unfold sendAllPubsubMsgs, bind.
  rewrite mapM_publish_start, mapM_publish_finish, extend_extend.
  rewrite map_map. cbn [snd].
  destruct (first_rejection (map (publish_settles rt config) ids)); reflexivity.
Qed.

Lemma published_app a b : published (a ++ b)%list = (published a ++ published b)%list.
Proof. apply flat_map_app. Qed.

Lemma published_start ids :
  published (flat_map (start_effects config) ids)
  = map (fun id => (pubsubTopicId config, Buffer_from id)) ids.
Proof. induction ids as [|id ids IH]; simpl; [reflexivity | now rewrite IH]. Qed.

Lemma published_finish ids : published (flat_map (finish_effects rt config) ids) = [].
Proof.
  induction ids as [|id ids IH]; [reflexivity|].
  cbn [flat_map]. rewrite published_app, IH. unfold finish_effects.
  destruct (publish_settles rt config id); reflexivity.
Qed.

(** C8. [sendAllPubsubMsgs] publishes one message per id, in the order of
    the ids, each holding the bytes of its id, all on the configured
    topic; for two ids these are the two messages [Buffer.from(a)] then
    [Buffer.from(b)]. *)
Theorem sendAllPubsubMsgs_publishes :
  (forall (ids : list string) (w : World),
      published (snd (run (sendAllPubsubMsgs rt config ids) w))
      = map (fun id => (pubsubTopicId config, Buffer_from id)) ids)
  /\ (forall (a b : string) (w : World),
         published (snd (run (sendAllPubsubMsgs rt config [a; b]) w))
         = [(pubsubTopicId config, list_byte_of_string a);
            (pubsubTopicId config, list_byte_of_string b)]).
Proof.
  assert (H : forall ids w,
             published (snd (run (sendAllPubsubMsgs rt config ids) w))
             = map (fun id => (pubsubTopicId config, Buffer_from id)) ids).
  { intros ids w. erewrite run_extend by apply sendAllPubsubMsgs_spec.
    cbn [snd]. rewrite published_app, published_start, published_finish.
    apply app_nil_r. }
  split; [exact H|]. intros a b w. now rewrite H.
Qed.

(** ** [checkEventState] *)

Lemma run_trace {A} (m : M A) w r w' evs :
  m w = (r, w') -> trace w' = (trace w ++ evs)%list -> run m w = (r, evs).
Proof.
  intros H Ht. unfold run. rewrite H, Ht. now rewrite drop_app_length.
Qed.

(** The [try] block settles as the services answer, whatever the world. *)
Lemma readEventStates_spec id strategy w :
  exists w1,
    readEventStates rt config id strategy w
    = (match stored_states rt config id strategy with
       | inl e => Rejected e
       | inr eventStates => Resolved eventStates
       end, w1)
    /\ trace w1 = (trace w ++ [download_effect config id strategy])%list.
Proof.
  unfold readEventStates, stored_states, download, bind.
  rewrite emit_extend.
  destruct (storage_download rt _ _) as [e|content].
  - eexists; split; reflexivity.
  - unfold readFile. cbn [tmp extend]. rewrite lookup_insert_eq.
    destruct (JSON_parse rt content) as [e|parsed]; eexists; split; reflexivity.
Qed.

Lemma loadEventStates_spec id strategy w :
  exists w1,
    loadEventStates rt config id strategy w
    = (Resolved (loaded_states rt config id strategy), w1)
    /\ trace w1 = (trace w ++ [download_effect config id strategy])%list.
Proof.
  destruct (readEventStates_spec id strategy w) as (w1 & Hr & Ht).
  unfold loadEventStates, try_catch, loaded_states. rewrite Hr.
  destruct (stored_states rt config id strategy); exists w1; split;
    solve [reflexivity | assumption].
Qed.

(** The two paths of [checkEventState]. *)
Lemma checkEventState_spec id strategy timeNow w :
  let eventStates := loaded_states rt config id strategy in
  let delta := event_delta id timeNow eventStates in
  exists w1,
    trace w1 = (trace w ++ [download_effect config id strategy])%list
    /\ checkEventState rt config id strategy timeNow w
       = if recently_triggered config delta
         then (Resolved (Active (Math_round_div1000 (default 0 delta))), w1)
         else (match storage_save rt (gcs_bucketName config) (state_file id strategy) with
               | Some e => Rejected e
               | None => Resolved Inactive
               end,
               extend w1 [state_save_effect config id strategy timeNow eventStates]).
Proof.
  intros eventStates delta.
  destruct (loadEventStates_spec id strategy w) as (w1 & Hl & Ht).
  exists w1. split; [assumption|].
  unfold checkEventState, bind. rewrite Hl. fold eventStates. fold delta.
  destruct (recently_triggered config delta); [reflexivity|].
  unfold save_call, bind, ret, await. rewrite emit_extend.
  destruct (storage_save rt _ _); reflexivity.
Qed.

(** How the check settles depends on the services only, not on the world
    in which it starts. *)
Lemma checkEventState_outcome_any_world id strategy timeNow w w' :
  fst (checkEventState rt config id strategy timeNow w)
  = fst (checkEventState rt config id strategy timeNow w').
Proof.
  destruct (checkEventState_spec id strategy timeNow w) as (w1 & _ & ->).
  destruct (checkEventState_spec id strategy timeNow w') as (w1' & _ & ->).
  cbv zeta. destruct (recently_triggered config _); reflexivity.
Qed.

(** X1. The check is active exactly when the loaded state has a record for
    [id] whose age is not zero and is below the configured minimum. *)
Lemma checkEventState_active_iff id strategy timeNow w delta :
  fst (checkEventState rt config id strategy timeNow w) = Resolved (Active delta)
  <-> exists r,
        prop_get id (loaded_states rt config id strategy) = Some r
        /\ timeNow - created r <> 0
        /\ timeNow - created r < minTimeBetweenTriggers config
        /\ delta = Math_round_div1000 (timeNow - created r).
Proof.
  destruct (checkEventState_spec id strategy timeNow w) as (w1 & _ & ->).
  unfold recently_triggered, event_delta.
  destruct (prop_get id (loaded_states rt config id strategy)) as [r|].
  - destruct (Z.eqb_spec (timeNow - created r) 0) as [Hz|Hz];
      destruct (Z.ltb_spec (timeNow - created r) (minTimeBetweenTriggers config))
        as [Hlt|Hlt]; cbn [negb andb fst default].
    all: split;
      [ intros H; try (destruct (storage_save rt _ _); discriminate H);
        injection H as <-; exists r; repeat split; assumption
      | intros (r' & [= <-] & Hnz & Hl & ->); try reflexivity; try lia ].
  - cbn [fst]. split.
    + intros H. destruct (storage_save rt _ _); discriminate H.
    + intros (r & H & _). discriminate H.
Qed.

(** ** [launchPagespeedInsights] *)

(** C7. A trigger whose decoded payload is neither [all] nor a configured
    source id resolves with [undefined] after a single call: the error
    line [No valid message found!]. Nothing else is called. *)
Theorem launch_invalid_message (event : PubsubEvent) (w : World) :
  trigger_message rt event <> "all" ->
  trigger_message rt event ∉ (configured_ids config) ->
  launchPagespeedInsights rt config event w
  = (Resolved RetUndefined,
     extend w [ConsoleError (ArgText "No valid message found!")]).
Proof.
  unfold trigger_message, configured_ids. intros Hall Hids.
  unfold launchPagespeedInsights, bind, try_catch, launch_body.
  apply String.eqb_neq in Hall. rewrite Hall.
  rewrite (includes_not_elem_of _ _ Hids). cbn [negb andb].
  unfold console_error, bind, ret. rewrite emit_extend. reflexivity.
Qed.

Lemma single_source_call_start ids :
  Forall (fun e => single_source_call e = false) (flat_map (start_effects config) ids).
Proof.
  induction ids as [|id ids IH]; cbn [flat_map]; [constructor|].
  unfold start_effects at 1. repeat constructor. exact IH.
Qed.

Lemma single_source_call_finish ids :
  Forall (fun e => single_source_call e = false)
    (flat_map (finish_effects rt config) ids).
Proof.
  induction ids as [|id ids IH]; cbn [flat_map]; [constructor|].
  apply Forall_app. split; [|exact IH].
  unfold finish_effects. destruct (publish_settles rt config id); repeat constructor.
Qed.

(** C10. A trigger whose decoded payload is [all] is the fan-out and
    nothing else: the invocation is [sendAllPubsubMsgs] on the configured
    ids, it publishes one message per configured id and makes no call of
    the single-source path, whatever the configured ids are. *)
Theorem launch_all_is_fan_out (event : PubsubEvent) (w : World) :
  trigger_message rt event = "all" ->
  launchPagespeedInsights rt config event w
  = (let* rs := sendAllPubsubMsgs rt config (configured_ids config) in ret (RetAll rs)) w
  /\ published (snd (run (launchPagespeedInsights rt config event) w))
     = map (fun id => (pubsubTopicId config, Buffer_from id)) (configured_ids config)
  /\ Forall (fun e => single_source_call e = false)
       (snd (run (launchPagespeedInsights rt config event) w)).
Proof.
  unfold trigger_message. intros Hall.
  assert (Heq : launchPagespeedInsights rt config event w
                = (let* rs := sendAllPubsubMsgs rt config (configured_ids config) in
                   ret (RetAll rs)) w).
  { unfold launchPagespeedInsights, try_catch, launch_body.
    unfold bind at 1. rewrite Hall. cbn [String.eqb Ascii.eqb Bool.eqb negb andb].
    reflexivity. }
  assert (Hrun : run (launchPagespeedInsights rt config event) w
                 = (match first_rejection (map (publish_settles rt config) (configured_ids config)) with
                    | Some e => Rejected e
                    | None => Resolved (RetAll (map (fun _ => tt) (configured_ids config)))
                    end,
                    (flat_map (start_effects config) (configured_ids config)
                       ++ flat_map (finish_effects rt config) (configured_ids config))%list)).
  { apply run_extend. rewrite Heq. unfold bind.
    rewrite sendAllPubsubMsgs_spec.
    destruct (first_rejection _); reflexivity. }
  split; [exact Heq|]. rewrite Hrun. cbn [snd]. split.
  - rewrite published_app, published_start, published_finish. apply app_nil_r.
  - apply Forall_app. split;
      [apply single_source_call_start | apply single_source_call_finish].
Qed.

Lemma filter_head_includes (msg : string) (src : Source.t) (rest : list Source.t) :
  List.filter (fun obj => String.eqb (Source.id obj) msg) (source config) = src :: rest ->
  includes msg (configured_ids config) = true.
Proof.
  intros Hf.
  assert (Hin : In src (List.filter (fun obj => String.eqb (Source.id obj) msg)
                          (source config))) by (rewrite Hf; now left).
  apply filter_In in Hin as [Hin Hid]. apply String.eqb_eq in Hid.
  apply includes_elem_of. unfold configured_ids. rewrite <- Hid.
  apply list_elem_of_In, in_map, Hin.
Qed.

(** C4. When the trigger names a configured source and the debounce check
    reports active (how it settles does not depend on the world, see
    [checkEventState_outcome_any_world]), the invocation logs that it
    received the message, reads the state, logs that it aborts and
    resolves: it saves nothing (the stored state stays as it was) and makes
    no downstream call (no report is fetched, no object written, no load
    job submitted). *)
Theorem launch_debounced_makes_no_write (event : PubsubEvent) (w : World)
    (src : Source.t) (rest : list Source.t) (delta : Z) :
  trigger_message rt event <> "all" ->
  List.filter (fun obj => String.eqb (Source.id obj) (trigger_message rt event))
    (source config) = src :: rest ->
  fst (checkEventState rt config (Source.id src) (Source.strategy src)
         (Date_getTime rt) w) = Resolved (Active delta) ->
  let evs := snd (run (launchPagespeedInsights rt config event) w) in
  fst (run (launchPagespeedInsights rt config event) w) = Resolved RetUndefined
  /\ evs = [ConsoleLog (Source.id src ++ ": Received message to start with URL "
                          ++ Source.url src ++ " on " ++ Source.strategy src);
            download_effect config (Source.id src) (Source.strategy src);
            ConsoleLog (Source.id src ++ ": Found active event on "
                          ++ Source.strategy src ++ " (" ++ pretty delta ++ "s < "
                          ++ pretty (Math_round_div1000 (minTimeBetweenTriggers config))
                          ++ "s), aborting...")]
  /\ saved evs = []
  /\ Forall (fun e => downstream_call e = false) evs.
Proof.
  unfold trigger_message. intros Hall Hf Hactive.
  pose proof (filter_head_includes _ _ _ Hf) as Hinc. unfold configured_ids in Hinc.
  apply String.eqb_neq in Hall.
  set (received := ConsoleLog _).
  set (aborting := ConsoleLog _).
  assert (Hrun : run (launchPagespeedInsights rt config event) w
                 = (Resolved RetUndefined,
                    [received; download_effect config (Source.id src) (Source.strategy src);
                     aborting])).
  { destruct (checkEventState_spec (Source.id src) (Source.strategy src)
                (Date_getTime rt) w) as (w0 & _ & Hw).
    destruct (checkEventState_spec (Source.id src) (Source.strategy src)
                (Date_getTime rt) (extend w [received])) as (w1 & Ht & Hw1).
    cbv zeta in Hw, Hw1. rewrite Hw in Hactive.
    destruct (recently_triggered config _) eqn:Hrec.
    - cbn [fst] in Hactive. injection Hactive as Hdelta.
      eapply run_trace with (w' := extend w1 [aborting]).
      + unfold launchPagespeedInsights, try_catch, launch_body.
        unfold bind at 1. rewrite Hall, Hinc, Hf. cbn [negb andb].
        unfold log at 1. unfold bind at 1. rewrite emit_extend.
        unfold bind at 1. fold received. rewrite Hw1, Hdelta.
        unfold log, bind, ret. rewrite emit_extend. reflexivity.
      + cbn [extend trace]. rewrite Ht. cbn [extend trace].
        rewrite <- !List.app_assoc. reflexivity.
    - cbn [fst] in Hactive. destruct (storage_save rt _ _); discriminate Hactive. }
  cbv zeta. rewrite Hrun. cbn [fst snd].
  repeat split; repeat constructor.
Qed.

(** C6. When the read of the state fails, be it the download or the
    parsing, [checkEventState] goes on with the empty state: it saves a
    state that holds [id] alone and resolves inactive if that save
    resolves. Whenever the check is not active and the save of the state
    rejects, [checkEventState] rejects with that error. *)
Theorem checkEventState_failure_policy (id strategy : string) (timeNow : Z) (w : World) :
  (forall e : Error,
      fst (readEventStates rt config id strategy w) = Rejected e ->
      fst (loadEventStates rt config id strategy w) = Resolved []
      /\ run (checkEventState rt config id strategy timeNow) w
         = (match storage_save rt (gcs_bucketName config) (state_file id strategy) with
            | Some e' => Rejected e'
            | None => Resolved Inactive
            end,
            [download_effect config id strategy;
             state_save_effect config id strategy timeNow []]))
  /\ (forall (e' : Error) (eventStates : JsObject EventState),
         fst (loadEventStates rt config id strategy w) = Resolved eventStates ->
         recently_triggered config (event_delta id timeNow eventStates) = false ->
         storage_save rt (gcs_bucketName config) (state_file id strategy) = Some e' ->
         fst (checkEventState rt config id strategy timeNow w) = Rejected e').
Proof.
  destruct (readEventStates_spec id strategy w) as (wr & Hr & _).
  destruct (loadEventStates_spec id strategy w) as (wl & Hl & _).
  destruct (checkEventState_spec id strategy timeNow w) as (w1 & Ht & Hc).
  cbv zeta in Hc. split.
  - intros e He. rewrite Hr in He. cbn [fst] in He.
    assert (Hempty : loaded_states rt config id strategy = []).
    { unfold loaded_states. destruct (stored_states rt config id strategy);
        [reflexivity | discriminate He]. }
    rewrite Hl, Hempty. split; [reflexivity|].
    rewrite Hempty in Hc. cbn [event_delta prop_get recently_triggered] in Hc.
    eapply run_trace; [exact Hc|].
    cbn [extend trace]. rewrite Ht, <- List.app_assoc. reflexivity.
  - intros e' eventStates Hload Hrec Hsave.
    rewrite Hl in Hload. cbn [fst] in Hload. injection Hload as Hload.
    rewrite Hc, Hload, Hrec, Hsave. reflexivity.
Qed.

(** ** [writeLogAndReportsToStorage] *)

Lemma report_start_spec obj id fileType w :
  report_start rt config obj id fileType w
  = (Resolved (if String.eqb fileType "json"
               then storage_save rt (gcs_bucketName config) (report_file obj id)
               else None),
     extend w (report_effects config obj id fileType)).
Proof.
  unfold report_start, report_effects, report_file.
  destruct (String.eqb_spec fileType "csv") as [->|Hcsv].
  - cbn [String.eqb Ascii.eqb Bool.eqb]. unfold ret. now rewrite extend_nil.
  - destruct (String.eqb fileType "json").
    + unfold log, save_call, bind, ret. rewrite !emit_extend, extend_extend.
      rewrite !append_assoc. reflexivity.
    + unfold ret. now rewrite extend_nil.
Qed.

Lemma mapM_report_start obj id formats w :
  storage_save rt (gcs_bucketName config) (report_file obj id) = None ->
  mapM (report_start rt config obj id) formats w
  = (Resolved (map (fun _ => None) formats),
     extend w (flat_map (report_effects config obj id) formats)).
Proof.
  intros Hsave. revert w. induction formats as [|fileType formats IH]; intros w.
  - simpl. unfold ret. now rewrite extend_nil.
  - cbn [mapM map flat_map]. unfold bind. rewrite report_start_spec, IH.
    rewrite Hsave, extend_extend. unfold ret.
    destruct (String.eqb fileType "json"); reflexivity.
Qed.

Lemma first_rejection_none {A} (l : list A) :
  first_rejection (map (fun _ => None) l) = None.
Proof. induction l; [reflexivity | assumption]. Qed.

Lemma saved_app a b : saved (a ++ b)%list = (saved a ++ saved b)%list.
Proof. apply flat_map_app. Qed.

Lemma saved_report_effects obj id formats :
  saved (flat_map (report_effects config obj id) formats)
  = map (fun _ => report_object config obj id) (List.filter (String.eqb "json") formats).
Proof.
  induction formats as [|fileType formats IH]; [reflexivity|].
  cbn [flat_map List.filter]. rewrite saved_app, IH.
  unfold report_effects. rewrite (String.eqb_sym "json" fileType).
  destruct (String.eqb fileType "json"); reflexivity.
Qed.

(** What the writer saves when the save of the report resolves: one report
    per configured [json], then the log. *)
Lemma writeLogAndReportsToStorage_saved obj id w :
  storage_save rt (gcs_bucketName config) (report_file obj id) = None ->
  saved (snd (run (writeLogAndReportsToStorage rt config obj id) w))
  = (map (fun _ => report_object config obj id)
       (List.filter (String.eqb "json") (default [] (outputFormat config)))
     ++ [log_object config obj id])%list.
Proof.
  intros Hsave.
  erewrite run_extend with
    (r := match storage_save rt (gcs_bucketName config) (log_file obj id) with
          | Some e => Rejected e
          | None => Resolved tt
          end)
    (evs := (flat_map (report_effects config obj id) (default [] (outputFormat config))
             ++ [ConsoleLog (id ++ ": Writing log to bucket " ++ gcs_bucketName config);
                 StorageSave (gcs_bucketName config) (log_file obj id)
                   (BodyText (JSON_stringify_spaced (JObj obj)))
                   (Some "application/json")])%list).
  - cbn [snd]. rewrite saved_app, saved_report_effects. reflexivity.
  - unfold writeLogAndReportsToStorage. unfold bind at 1.
    rewrite (mapM_report_start _ _ _ _ Hsave), first_rejection_none.
    unfold await at 1, log, save_call, bind, ret.
    rewrite !emit_extend, !extend_extend. fold (log_file obj id).
    destruct (storage_save rt (gcs_bucketName config) (log_file obj id));
      reflexivity.
Qed.

(** Without a configured format the writer saves the log and nothing
    else, however the save settles. *)
Lemma writeLogAndReportsToStorage_no_format obj id w :
  default [] (outputFormat config) = [] ->
  saved (snd (run (writeLogAndReportsToStorage rt config obj id) w))
  = [log_object config obj id].
Proof.
  intros Hnone.
  erewrite run_extend with
    (r := match storage_save rt (gcs_bucketName config) (log_file obj id) with
          | Some e => Rejected e
          | None => Resolved tt
          end)
    (evs := [ConsoleLog (id ++ ": Writing log to bucket " ++ gcs_bucketName config);
             StorageSave (gcs_bucketName config) (log_file obj id)
               (BodyText (JSON_stringify_spaced (JObj obj)))
               (Some "application/json")]).
  - reflexivity.
  - unfold writeLogAndReportsToStorage. rewrite Hnone.
    unfold mapM, first_rejection, await, log, save_call, bind, ret.
    rewrite !emit_extend, !extend_extend. fold (log_file obj id).
    destruct (storage_save rt (gcs_bucketName config) (log_file obj id));
      reflexivity.
Qed.

(** C5. With [outputFormat] absent or empty, [writeLogAndReportsToStorage]
    saves exactly one object, the log
    [{id}/{formFactor}/log_{timestamp}.json]. When the save of the report
    resolves: with [outputFormat] equal to [["json"]] it saves exactly two
    objects, [{id}/{formFactor}/report_{timestamp}.json] then the log; and
    whatever the configured formats, the log is saved, last. *)
Theorem writeLogAndReportsToStorage_objects (obj : Obj) (id : string) (w : World) :
  let written := saved (snd (run (writeLogAndReportsToStorage rt config obj id) w)) in
  (outputFormat config = None \/ outputFormat config = Some [] ->
   written = [log_object config obj id])
  /\ (storage_save rt (gcs_bucketName config) (report_file obj id) = None ->
      (outputFormat config = Some ["json"] ->
       written = [report_object config obj id; log_object config obj id])
      /\ (exists reports, written = (reports ++ [log_object config obj id])%list)).
Proof.
  intros written. subst written. split.
  - intros H. apply writeLogAndReportsToStorage_no_format.
    destruct H as [-> | ->]; reflexivity.
  - intros Hsave. rewrite (writeLogAndReportsToStorage_saved _ _ _ Hsave). split.
    + intros ->. reflexivity.
    + eexists. reflexivity.
Qed.

End Properties.

(** ** The properties on the stubbed services *)

Lemma launch_invalid_message_witness :
  trigger_message (ok_runtime 0 0) {| data := "invalid_message" |} <> "all"
  /\ (trigger_message (ok_runtime 0 0) {| data := "invalid_message" |}
        ∉ configured_ids test_config)
  /\ launchPagespeedInsights (ok_runtime 0 0) test_config
       {| data := "invalid_message" |} world0
     = (Resolved RetUndefined,
        extend world0 [ConsoleError (ArgText "No valid message found!")]).
Proof.
  assert (H1 : trigger_message (ok_runtime 0 0) {| data := "invalid_message" |} <> "all")
    by discriminate.
  assert (H2 : trigger_message (ok_runtime 0 0) {| data := "invalid_message" |}
                 ∉ configured_ids test_config).
  { intros Hin. apply includes_elem_of in Hin. vm_compute in Hin. discriminate Hin. }
  split; [exact H1|]. split; [exact H2|].
  exact (launch_invalid_message (ok_runtime 0 0) test_config
           {| data := "invalid_message" |} world0 H1 H2).
Defined.

Lemma launch_all_is_fan_out_witness :
  trigger_message (ok_runtime 0 0) {| data := "all" |} = "all"
  /\ published (snd (run (launchPagespeedInsights (ok_runtime 0 0) all_config
                            {| data := "all" |}) world0))
     = [("launch-lighthouse", list_byte_of_string "all");
        ("launch-lighthouse", list_byte_of_string "ebay")].
Proof.
  split; [reflexivity|].
  exact (proj1 (proj2 (launch_all_is_fan_out (ok_runtime 0 0) all_config
                         {| data := "all" |} world0 eq_refl))).
Defined.

Lemma launch_debounced_witness :
  fst (checkEventState (ok_runtime 11000 1000) test_config "googlesearch" "mobile"
         11000 world0) = Resolved (Active 10)
  /\ saved (snd (run (launchPagespeedInsights (ok_runtime 11000 1000) test_config
                        {| data := "googlesearch" |}) world0)) = []
  /\ Forall (fun e => downstream_call e = false)
       (snd (run (launchPagespeedInsights (ok_runtime 11000 1000) test_config
                    {| data := "googlesearch" |}) world0)).
Proof.
  assert (H1 : trigger_message (ok_runtime 11000 1000) {| data := "googlesearch" |}
               <> "all") by discriminate.
  split; [reflexivity|].
  exact (proj2 (proj2 (launch_debounced_makes_no_write (ok_runtime 11000 1000)
                         test_config {| data := "googlesearch" |} world0
                         googlesearch [] 10 H1 eq_refl eq_refl))).
Defined.

Lemma checkEventState_failure_policy_witness :
  (fst (readEventStates (stub_runtime 1000 0 (Some not_found) None None None)
          test_config "ebay" "desktop" world0) = Rejected not_found
   /\ fst (run (checkEventState (stub_runtime 1000 0 (Some not_found) None None None)
                  test_config "ebay" "desktop" 1000) world0) = Resolved Inactive)
  /\ (storage_save (stub_runtime 1000 0 None (Some unavailable) None None)
        "pagespeedinsights-reports" "ebay/desktop/state.json" = Some unavailable
      /\ fst (checkEventState (stub_runtime 1000 0 None (Some unavailable) None None)
                test_config "ebay" "desktop" 1000 world0) = Rejected unavailable).
Proof.
  split; (split; [reflexivity|]).
  - exact (f_equal fst
             (proj2 (proj1 (checkEventState_failure_policy
                              (stub_runtime 1000 0 (Some not_found) None None None)
                              test_config "ebay" "desktop" 1000 world0)
                       not_found eq_refl))).
  - exact (proj2 (checkEventState_failure_policy
                    (stub_runtime 1000 0 None (Some unavailable) None None)
                    test_config "ebay" "desktop" 1000 world0)
             unavailable [("googlesearch", {| created := 0 |})]
             eq_refl eq_refl eq_refl).
Defined.

Lemma writeLogAndReportsToStorage_objects_witness :
  storage_save (ok_runtime 0 0) "pagespeedinsights-reports"
    "ebay/desktop/report_2018-12-17T10:56:56.420Z.json" = None
  /\ outputFormat test_config = Some ["json"]
  /\ saved (snd (run (writeLogAndReportsToStorage (ok_runtime 0 0) test_config
                        mockObj "ebay") world0))
     = [("pagespeedinsights-reports",
         "ebay/desktop/report_2018-12-17T10:56:56.420Z.json",
         BodyObject mockObj);
        ("pagespeedinsights-reports",
         "ebay/desktop/log_2018-12-17T10:56:56.420Z.json",
         BodyText (JSON_stringify_spaced (JObj mockObj)))].
Proof.
  split; [reflexivity|]. split; [reflexivity|].
  exact (proj1 (proj2 (writeLogAndReportsToStorage_objects (ok_runtime 0 0)
                         test_config mockObj "ebay" world0) eq_refl) eq_refl).
Defined.

(** ** Where the program departs from its description *)

(** C1. The record of [googlesearch] exists and its age, [0] ms, is below
    the configured minimum: the check should be active. The program tests
    [delta && ...], and [0] is falsy: it answers inactive and rewrites the
    record. *)
Theorem checkEventState_zero_delta_is_inactive :
  prop_get "googlesearch"
    (loaded_states (ok_runtime 1000 1000) test_config "googlesearch" "mobile")
  = Some {| created := 1000 |}
  /\ 1000 - 1000 < minTimeBetweenTriggers test_config
  /\ run (checkEventState (ok_runtime 1000 1000) test_config "googlesearch" "mobile"
            1000) world0
     = (Resolved Inactive,
        [download_effect test_config "googlesearch" "mobile";
         state_save_effect test_config "googlesearch" "mobile" 1000
           [("googlesearch", {| created := 1000 |})]]).
Proof. repeat split; reflexivity. Qed.

Lemma prop_get_set_eq {V} (k : string) (v : V) (o : JsObject V) :
  prop_get k (prop_set k v o) = Some v.
Proof.
  induction o as [|[k' v'] o IH]; cbn [prop_set prop_get].
  - now rewrite String.eqb_refl.
  - destruct (String.eqb k k') eqn:E; cbn [prop_get]; rewrite E; [reflexivity | exact IH].
Qed.

Lemma prop_get_set_ne {V} (k k' : string) (v : V) (o : JsObject V) :
  k <> k' -> prop_get k (prop_set k' v o) = prop_get k o.
Proof.
  intros Hne. induction o as [|[k0 v0] o IH]; cbn [prop_set prop_get].
  - apply String.eqb_neq in Hne. now rewrite Hne.
  - destruct (String.eqb k' k0) eqn:E; cbn [prop_get].
    + apply String.eqb_eq in E. subst k0.
      apply String.eqb_neq in Hne. now rewrite Hne.
    + destruct (String.eqb k k0); [reflexivity | exact IH].
Qed.

(** The fetcher itself annotates the report with its parameters in the
    order in which it declares them: id, url, strategy. *)
Lemma getPagespeedInsightsReport_annotates rt id url strategy category w psi w' :
  getPagespeedInsightsReport rt id url strategy category w = (Resolved psi, w') ->
  prop_get "id" psi = Some (JStr id)
  /\ prop_get "url" psi = Some (JStr url)
  /\ prop_get "emulatedFormFactor" psi = Some (JStr strategy).
Proof.
  unfold getPagespeedInsightsReport, runpagespeed, log, bind, ret, throw.
  rewrite !emit_extend.
  destruct (pagespeed_runpagespeed rt url strategy (default [] category)) as [e|raw];
    [discriminate|].
  intros [= <- _]. repeat split.
  - rewrite !prop_get_set_ne by discriminate. apply prop_get_set_eq.
  - rewrite prop_get_set_ne by discriminate. apply prop_get_set_eq.
  - apply prop_get_set_eq.
Qed.

(** C2. [launchPagespeedInsights] calls the fetcher with the strategy in
    the place of the url and the url in the place of the strategy: for
    [googlesearch] the audit is requested for the url [mobile] on the
    strategy [https://www.google.com/], and the report given to the writer
    has [url] = [mobile] and [emulatedFormFactor] =
    [https://www.google.com/]. *)
Theorem launch_swaps_url_and_strategy :
  let evs := snd (run (launchPagespeedInsights (ok_runtime 1000000 0) test_config
                         {| data := "googlesearch" |}) world0) in
  In (RunPagespeed "mobile" "https://www.google.com/" []) evs
  /\ exists file report,
       In (StorageSave "pagespeedinsights-reports" file (BodyObject report)
             (Some "application/json")) evs
       /\ prop_get "id" report = Some (JStr "googlesearch")
       /\ prop_get "url" report = Some (JStr "mobile")
       /\ prop_get "emulatedFormFactor" report = Some (JStr "https://www.google.com/").
Proof.
  cbv zeta. split.
  - vm_compute. tauto.
  - eexists _, _. split; [vm_compute; do 7 right; left; reflexivity|].
    repeat split; reflexivity.
Qed.

(** An error raised while the body of the [try] runs is logged, and the
    invocation resolves. *)
Lemma launch_logs_error_of_body rt config event w e w' :
  launch_body rt config event w = (Rejected e, w') ->
  launchPagespeedInsights rt config event w
  = (Resolved RetUndefined, extend w' [ConsoleError (ArgError e)]).
Proof.
  intros H. unfold launchPagespeedInsights, bind, try_catch. rewrite H.
  unfold console_error, bind, ret. rewrite emit_extend. reflexivity.
Qed.

(** C3. The promises of the fan-out and of the load job are returned, not
    awaited, inside the [try]: when a publish rejects, or when the load
    rejects, the invocation rejects with that error and nothing is given
    to [console.error]. *)
Theorem launch_rejection_escapes :
  run (launchPagespeedInsights
         (stub_runtime 1000 0 None None (Some unavailable) None) test_config
         {| data := "all" |}) world0
  = (Rejected unavailable,
     [ConsoleLog "googlesearch: Sending init PubSub message";
      PubsubPublish "launch-lighthouse" (list_byte_of_string "googlesearch");
      ConsoleLog "ebay: Sending init PubSub message";
      PubsubPublish "launch-lighthouse" (list_byte_of_string "ebay")])
  /\ (let r := run (launchPagespeedInsights
                      (stub_runtime 1000000 0 None None None (Some unavailable))
                      test_config {| data := "googlesearch" |}) world0 in
      fst r = Rejected unavailable /\ error_logs (snd r) = []).
Proof. repeat split; reflexivity. Qed.

(** ** More on [toNdjson]: one line per record *)

Lemma json_ind_nested (P : json -> Prop) :
  P JNull ->
  (forall b, P (JBool b)) ->
  (forall n, P (JNum n)) ->
  (forall s, P (JStr s)) ->
  (forall items, Forall P items -> P (JArr items)) ->
  (forall props, Forall (fun kv => P (snd kv)) props -> P (JObj props)) ->
  forall j, P j.
Proof.
  intros HN HB HZ HS HA HO. fix IH 1. intros [ | b | n | s | items | props].
  - exact HN.
  - apply HB.
  - apply HZ.
  - apply HS.
  - apply HA. induction items as [|item items IHitems]; constructor;
      [apply IH | exact IHitems].
  - apply HO. induction props as [|[k v] props IHprops]; constructor;
      [apply IH | exact IHprops].
Qed.

Lemma count_nl_app (a b : string) : count_nl (a ++ b) = (count_nl a + count_nl b)%nat.
Proof.
  induction a as [|c a IH]; [reflexivity|].
  change (count_nl (String c (a ++ b)) = (count_nl (String c a) + count_nl b)%nat).
  cbn [count_nl]. rewrite IH. lia.
Qed.

Lemma count_nl_quote_char (c : ascii) : count_nl (quote_char c) = 0%nat.
Proof. destruct c as [[] [] [] [] [] [] [] []]; reflexivity. Qed.

Lemma count_nl_quote (s : string) : count_nl (JSON_quote s) = 0%nat.
Proof.
  unfold JSON_quote. rewrite !count_nl_app.
  assert (H : count_nl (quote_chars s) = 0%nat).
  { induction s as [|c s IH]; [reflexivity|].
    cbn [quote_chars]. now rewrite count_nl_app, count_nl_quote_char, IH. }
  rewrite H. reflexivity.
Qed.

Lemma count_nl_pretty_N_go (x : N) (s : string) :
  count_nl (pretty_N_go x s) = count_nl s.
Proof.
  revert s. induction (N.lt_wf_0 x) as [x _ IH]; intros s.
  destruct (N.eq_dec x 0) as [->|Hx]; [reflexivity|].
  rewrite pretty_N_go_step by lia. rewrite IH by (apply N.div_lt; lia).
  assert (Hdigit : forall d, Nat.eqb (nat_of_ascii (pretty_N_char d)) 10 = false).
  { intros d. unfold pretty_N_char. repeat case_match; reflexivity. }
  cbn [count_nl]. now rewrite Hdigit.
Qed.

Lemma count_nl_pretty_Z (n : Z) : count_nl (pretty n) = 0%nat.
Proof.
  assert (HN : forall x : N, count_nl (pretty x) = 0%nat).
  { intros x. unfold pretty, pretty_N. case_decide; [reflexivity|].
    apply count_nl_pretty_N_go. }
  destruct n as [|p|p]; [reflexivity | exact (HN (Npos p)) |].
  unfold pretty, pretty_Z. rewrite count_nl_app. exact (HN (Npos p)).
Qed.

Lemma count_nl_join_comma (parts : list string) :
  Forall (fun p => count_nl p = 0%nat) parts -> count_nl (join "," parts) = 0%nat.
Proof.
  induction 1 as [|p parts Hp _ IH]; [reflexivity|].
  destruct parts as [|q parts]; [exact Hp|].
  change (join "," (p :: q :: parts)) with (p ++ "," ++ join "," (q :: parts)).
  now rewrite !count_nl_app, Hp, IH.
Qed.

Lemma count_nl_wrap_compact (opening closing stepback indent : string)
    (partial : list string) :
  count_nl opening = 0%nat -> count_nl closing = 0%nat ->
  Forall (fun p => count_nl p = 0%nat) partial ->
  count_nl (JSON_wrap opening closing "" stepback indent partial) = 0%nat.
Proof.
  intros Ho Hc Hp. unfold JSON_wrap. destruct partial as [|p partial].
  - now rewrite count_nl_app, Ho, Hc.
  - cbn [String.eqb]. now rewrite !count_nl_app, Ho, Hc, count_nl_join_comma.
Qed.

(** The compact serialisation holds no line feed: those of a string are
    escaped. *)
Lemma count_nl_stringify (j : json) : count_nl (JSON_stringify j) = 0%nat.
Proof.
  unfold JSON_stringify. generalize "" at 2 as indent. revert j.
  induction j as [ | [] | n | s | items IH | props IH] using json_ind_nested;
    intros indent; cbn [JSON_serialize];
    try reflexivity; try apply count_nl_pretty_Z; try apply count_nl_quote.
  - apply count_nl_wrap_compact; try reflexivity.
    induction IH as [|item items Hitem _ IHitems]; constructor;
      [apply Hitem | exact IHitems].
  - apply count_nl_wrap_compact; try reflexivity.
    induction IH as [|[k v] props Hv _ IHprops]; constructor; [|exact IHprops].
    cbn [String.eqb]. cbn [snd] in Hv.
    now rewrite !count_nl_app, count_nl_quote, Hv.
Qed.

Lemma toNdjson_items (data : json) :
  toNdjson data
  = String.concat "" (map (fun item => JSON_stringify item ++ nl) (ndjson_items data)).
Proof.
  unfold toNdjson. fold (ndjson_items data). now rewrite toNdjson_fold.
Qed.

Lemma toNdjson_line_count (data : json) :
  count_nl (toNdjson data) = List.length (ndjson_items data)
  /\ forall item, count_nl (JSON_stringify item) = 0%nat.
Proof.
  split; [|apply count_nl_stringify].
  rewrite toNdjson_items. induction (ndjson_items data) as [|item items IH];
    [reflexivity|].
  cbn [map]. rewrite concat_empty_cons, !count_nl_app, count_nl_stringify, IH.
  reflexivity.
Qed.

(** X2. The text of [toNdjson] has exactly one line feed per record, the
    one that ends the record: as many as the array has elements, one for a
    value that is not an array. A line feed inside a string of the data is
    escaped and never splits a record. *)
Theorem toNdjson_one_line_per_record (data : json) :
  count_nl (toNdjson data) = List.length (ndjson_items data)
  /\ forall item, count_nl (JSON_stringify item) = 0%nat.
Proof. exact (toNdjson_line_count data). Qed.

Lemma concat_empty_app (l1 l2 : list string) :
  String.concat "" (l1 ++ l2)%list = String.concat "" l1 ++ String.concat "" l2.
Proof.
  induction l1 as [|x l1 IH]; [reflexivity|].
  change ((x :: l1) ++ l2)%list with (x :: (l1 ++ l2))%list.
  now rewrite !concat_empty_cons, IH, append_assoc.
Qed.

(** X3. Serialising two arrays one after the other gives the text of the
    array of all their elements: texts of [toNdjson] can be appended. *)
Theorem toNdjson_app (items1 items2 : list json) :
  toNdjson (JArr (items1 ++ items2)%list)
  = toNdjson (JArr items1) ++ toNdjson (JArr items2).
Proof.
  rewrite !toNdjson_items. cbn [ndjson_items].
  now rewrite map_app, concat_empty_app.
Qed.

Section MoreProperties.

Variable rt : Runtime.
Variable config : Config.

(** ** Settling and added effects *)

Lemma adds_run {A} (m : M A) w r evs : adds m w r evs -> run m w = (r, evs).
Proof. intros (w' & Hm & Ht). exact (run_trace m w r w' evs Hm Ht). Qed.

Lemma adds_emit e w : adds (emit e) w (Resolved tt) [e].
Proof. eexists. split; reflexivity. Qed.

Lemma adds_eq {A} (m : M A) w r evs evs' :
  adds m w r evs -> evs = evs' -> adds m w r evs'.
Proof. now intros H <-. Qed.

Lemma adds_log line w : adds (log line) w (Resolved tt) [ConsoleLog line].
Proof. apply adds_emit. Qed.

Lemma adds_bind {A B} (m : M A) (k : A -> M B) w a w' r evs1 evs2 :
  m w = (Resolved a, w') ->
  trace w' = (trace w ++ evs1)%list ->
  adds (k a) w' r evs2 ->
  adds (bind m k) w r (evs1 ++ evs2)%list.
Proof.
  intros Hm Ht (w'' & Hk & Ht'). exists w''. unfold bind. rewrite Hm. split;
    [exact Hk|]. now rewrite Ht', Ht, <- List.app_assoc.
Qed.

Lemma adds_bind_rejected {A B} (m : M A) (k : A -> M B) w e evs :
  adds m w (Rejected e) evs -> adds (bind m k) w (Rejected e) evs.
Proof.
  intros (w' & Hm & Ht). exists w'. unfold bind. rewrite Hm. split;
    [reflexivity | exact Ht].
Qed.

Lemma adds_bind_resolved {A B} (m : M A) (k : A -> M B) w a r evs1 evs2 :
  adds m w (Resolved a) evs1 ->
  (forall w', adds (k a) w' r evs2) ->
  adds (bind m k) w r (evs1 ++ evs2)%list.
Proof.
  intros (w' & Hm & Ht) Hk. exact (adds_bind m k w a w' r evs1 evs2 Hm Ht (Hk w')).
Qed.

(** ** More on [getPagespeedInsightsReport] *)

Lemma getPagespeedInsightsReport_adds id url strategy category w :
  adds (getPagespeedInsightsReport rt id url strategy category) w
    (match pagespeed_runpagespeed rt url strategy (default [] category) with
     | inl e => Rejected e
     | inr raw => Resolved (annotated id url strategy raw)
     end)
    ([ConsoleLog (id ++ ": Requesting Pagespeed Insight report for " ++ url
                     ++ " on " ++ strategy);
      RunPagespeed url strategy (default [] category)]
     ++ match pagespeed_runpagespeed rt url strategy (default [] category) with
        | inl _ => []
        | inr _ => [ConsoleLog (id ++ ": Pagespeed Insight report received for "
                                   ++ url ++ " on " ++ strategy)]
        end)%list.
Proof.
  unfold adds, getPagespeedInsightsReport, runpagespeed, log, bind, ret, throw.
  rewrite !emit_extend.
  destruct (pagespeed_runpagespeed rt url strategy (default [] category)) as [e|raw];
    eexists; (split; [reflexivity|]); cbn [extend trace];
    now rewrite <- !List.app_assoc.
Qed.

(** X4. [getPagespeedInsightsReport] settles as the audit API does, called
    with the url, the strategy and the categories ([[]] when none is
    given). When the API rejects, the fetcher rejects with the same error
    after the request line alone. When it resolves, both lines are logged
    and the report is the response with [id], [url] and
    [emulatedFormFactor] set to the parameters (a property of that name in
    the response is overwritten) and every other property kept. *)
Theorem getPagespeedInsightsReport_settles (id url strategy : string)
    (category : option (list string)) (w : World) :
  let requesting :=
    ConsoleLog (id ++ ": Requesting Pagespeed Insight report for " ++ url
                   ++ " on " ++ strategy) in
  let request := RunPagespeed url strategy (default [] category) in
  (forall e,
      pagespeed_runpagespeed rt url strategy (default [] category) = inl e ->
      run (getPagespeedInsightsReport rt id url strategy category) w
      = (Rejected e, [requesting; request]))
  /\ (forall raw,
         pagespeed_runpagespeed rt url strategy (default [] category) = inr raw ->
         exists psi,
           run (getPagespeedInsightsReport rt id url strategy category) w
           = (Resolved psi,
              [requesting; request;
               ConsoleLog (id ++ ": Pagespeed Insight report received for " ++ url
                              ++ " on " ++ strategy)])
           /\ prop_get "id" psi = Some (JStr id)
           /\ prop_get "url" psi = Some (JStr url)
           /\ prop_get "emulatedFormFactor" psi = Some (JStr strategy)
           /\ forall k, k <> "id" -> k <> "url" -> k <> "emulatedFormFactor" ->
                        prop_get k psi = prop_get k raw).
Proof.
  intros requesting request.
  pose proof (adds_run _ _ _ _ (getPagespeedInsightsReport_adds id url strategy
                                  category w)) as Hrun.
  split.
  - intros e He. rewrite He in Hrun. exact Hrun.
  - intros raw Hraw. rewrite Hraw in Hrun. exists (annotated id url strategy raw).
    split; [exact Hrun|]. unfold annotated. repeat split.
    + rewrite !prop_get_set_ne by discriminate. apply prop_get_set_eq.
    + rewrite prop_get_set_ne by discriminate. apply prop_get_set_eq.
    + apply prop_get_set_eq.
    + intros k H1 H2 H3. now rewrite !prop_get_set_ne.
Qed.

(** ** More on [sendAllPubsubMsgs] *)





(** ** More on [writeLogAndReportsToStorage] *)

Lemma mapM_report_start_settles obj id formats w :
  mapM (report_start rt config obj id) formats w
  = (Resolved (map (report_settles rt config obj id) formats),
     extend w (flat_map (report_effects config obj id) formats)).
Proof.
  revert w. induction formats as [|fileType formats IH]; intros w.
  - simpl. unfold ret. now rewrite extend_nil.
  - cbn [mapM map flat_map]. unfold bind. rewrite report_start_spec, IH.
    rewrite extend_extend. reflexivity.
Qed.

(** The writer, whatever the saves do: the report saves settle first. *)
Lemma writeLogAndReportsToStorage_adds obj id w :
  let formats := default [] (outputFormat config) in
  adds (writeLogAndReportsToStorage rt config obj id) w
    (match first_rejection (map (report_settles rt config obj id) formats) with
     | Some e => Rejected e
     | None =>
         match storage_save rt (gcs_bucketName config) (log_file obj id) with
         | Some e => Rejected e
         | None => Resolved tt
         end
     end)
    (flat_map (report_effects config obj id) formats
     ++ match first_rejection (map (report_settles rt config obj id) formats) with
        | Some _ => []
        | None => log_effects config obj id
        end)%list.
Proof.
  intros formats. unfold adds, writeLogAndReportsToStorage. unfold bind at 1.
  fold formats. rewrite mapM_report_start_settles.
  destruct (first_rejection _) as [e|].
  - eexists. split; [reflexivity|]. cbn [extend trace]. now rewrite app_nil_r.
  - unfold await at 1, log, save_call, bind, ret.
    rewrite !emit_extend, !extend_extend. fold (log_file obj id).
    destruct (storage_save rt (gcs_bucketName config) (log_file obj id));
      eexists; (split; [reflexivity|]); reflexivity.
Qed.

Lemma report_settles_not_json obj id formats :
  Forall (fun fileType => fileType <> "json") formats ->
  first_rejection (map (report_settles rt config obj id) formats) = None
  /\ flat_map (report_effects config obj id) formats = [].
Proof.
  induction 1 as [|fileType formats Hft _ [IH1 IH2]]; [split; reflexivity|].
  cbn [map first_rejection flat_map]. unfold report_settles at 1, report_effects at 1.
  apply String.eqb_neq in Hft. rewrite Hft. split; [exact IH1 | exact IH2].
Qed.

(** X6. A configured format other than [json] ([csv], [html], anything
    else) has no effect at all: when no format is [json], the writer logs
    one line and makes one save, that of the log, and settles as that save
    does. *)
Theorem writeLogAndReportsToStorage_placeholders (obj : Obj) (id : string) (w : World) :
  Forall (fun fileType => fileType <> "json") (default [] (outputFormat config)) ->
  run (writeLogAndReportsToStorage rt config obj id) w
  = (match storage_save rt (gcs_bucketName config) (log_file obj id) with
     | Some e => Rejected e
     | None => Resolved tt
     end,
     [ConsoleLog (id ++ ": Writing log to bucket " ++ gcs_bucketName config);
      StorageSave (gcs_bucketName config) (log_file obj id)
        (BodyText (JSON_stringify_spaced (JObj obj))) (Some "application/json")]).
Proof.
  intros Hnone.
  pose proof (adds_run _ _ _ _ (writeLogAndReportsToStorage_adds obj id w)) as Hrun.
  cbv zeta in Hrun.
  destruct (report_settles_not_json obj id _ Hnone) as [H1 H2].
  rewrite H1, H2 in Hrun. exact Hrun.
Qed.

Lemma first_rejection_report_failure obj id formats e :
  storage_save rt (gcs_bucketName config) (report_file obj id) = Some e ->
  "json" ∈ formats ->
  first_rejection (map (report_settles rt config obj id) formats) = Some e.
Proof.
  intros Hsave. induction formats as [|fileType formats IH]; intros Hin.
  - inversion Hin.
  - cbn [map first_rejection]. unfold report_settles at 1.
    destruct (String.eqb_spec fileType "json") as [->|Hne].
    + now rewrite Hsave.
    + apply IH. inversion Hin; subst; [contradiction | assumption].
Qed.

(** X7. When [json] is configured and the save of the report rejects, the
    writer rejects with that error: the report saves were all made, the
    log is neither announced nor saved. *)
Theorem writeLogAndReportsToStorage_report_failure (obj : Obj) (id : string)
    (w : World) (e : Error) :
  storage_save rt (gcs_bucketName config) (report_file obj id) = Some e ->
  "json" ∈ default [] (outputFormat config) ->
  run (writeLogAndReportsToStorage rt config obj id) w
  = (Rejected e,
     flat_map (report_effects config obj id) (default [] (outputFormat config)))
  /\ log_object config obj id
       ∉ saved (snd (run (writeLogAndReportsToStorage rt config obj id) w)).
Proof.
  intros Hsave Hin.
  pose proof (adds_run _ _ _ _ (writeLogAndReportsToStorage_adds obj id w)) as Hrun.
  cbv zeta in Hrun.
  rewrite (first_rejection_report_failure obj id _ e Hsave Hin), app_nil_r in Hrun.
  split; [exact Hrun|]. rewrite Hrun. cbn [snd]. rewrite saved_report_effects.
  intros Hlog. apply list_elem_of_In, in_map_iff in Hlog as (x & Heq & _).
  discriminate Heq.
Qed.

(** X8. When the save of the report resolves, the writer saves the report
    once for each [json] among the configured formats, a repeated [json]
    included, each time in the same file, and then the log. *)
Theorem writeLogAndReportsToStorage_one_report_per_json (obj : Obj) (id : string)
    (w : World) :
  storage_save rt (gcs_bucketName config) (report_file obj id) = None ->
  saved (snd (run (writeLogAndReportsToStorage rt config obj id) w))
  = (replicate
       (List.length (List.filter (String.eqb "json") (default [] (outputFormat config))))
       (report_object config obj id)
     ++ [log_object config obj id])%list.
Proof.
  intros Hsave. rewrite (writeLogAndReportsToStorage_saved rt config _ _ _ Hsave).
  f_equal. induction (List.filter _ _) as [|x l IH]; [reflexivity|].
  cbn [map List.length replicate]. now rewrite IH.
Qed.

(** ** More on [checkEventState] *)

Lemma checkEventState_inactive_inv id strategy timeNow w :
  fst (checkEventState rt config id strategy timeNow w) = Resolved Inactive ->
  recently_triggered config
    (event_delta id timeNow (loaded_states rt config id strategy)) = false
  /\ storage_save rt (gcs_bucketName config) (state_file id strategy) = None.
Proof.
  destruct (checkEventState_spec rt config id strategy timeNow w) as (w1 & _ & ->).
  cbv zeta. destruct (recently_triggered config _); [discriminate|].
  cbn [fst]. destruct (storage_save rt _ _); [discriminate | now split].
Qed.

Lemma checkEventState_inactive_adds id strategy timeNow w :
  recently_triggered config
    (event_delta id timeNow (loaded_states rt config id strategy)) = false ->
  adds (checkEventState rt config id strategy timeNow) w
    (match storage_save rt (gcs_bucketName config) (state_file id strategy) with
     | Some e => Rejected e
     | None => Resolved Inactive
     end)
    [download_effect config id strategy;
     state_save_effect config id strategy timeNow (loaded_states rt config id strategy)].
Proof.
  intros Hrec.
  destruct (checkEventState_spec rt config id strategy timeNow w) as (w1 & Ht & Hc).
  cbv zeta in Hc. rewrite Hrec in Hc. eexists. split; [exact Hc|].
  cbn [extend trace]. now rewrite Ht, <- List.app_assoc.
Qed.

(** X9. Whenever the check resolves inactive, it has made one save, that
    of the state file, with the text of a state in which [id] is created
    at [timeNow] and every other id has the record that was loaded: the
    records of the other sources are kept. *)
Theorem checkEventState_inactive_rewrites (id strategy : string) (timeNow : Z)
    (w : World) :
  fst (checkEventState rt config id strategy timeNow w) = Resolved Inactive ->
  exists eventStates,
    saved (snd (run (checkEventState rt config id strategy timeNow) w))
    = [(gcs_bucketName config, state_file id strategy,
        BodyText (JSON_stringify_spaced (eventStates_json eventStates)))]
    /\ prop_get id eventStates = Some {| created := timeNow |}
    /\ forall k, k <> id ->
         prop_get k eventStates = prop_get k (loaded_states rt config id strategy).
Proof.
  intros Hin. apply checkEventState_inactive_inv in Hin as [Hrec _].
  exists (prop_set id {| created := timeNow |} (loaded_states rt config id strategy)).
  rewrite (adds_run _ _ _ _ (checkEventState_inactive_adds id strategy timeNow w Hrec)).
  split; [reflexivity|]. split; [apply prop_get_set_eq|].
  intros k Hk. now apply prop_get_set_ne.
Qed.

(** X10. The seconds that an active check reports are the age of the
    record rounded to the nearest second, and they are at most the
    configured minimum rounded the same way: the abort line
    [(<delta>s < <minimum>s)] may show two equal numbers, never a larger
    one on the left. *)
Theorem checkEventState_delta_bounds (id strategy : string) (timeNow : Z) (w : World)
    (delta : Z) :
  fst (checkEventState rt config id strategy timeNow w) = Resolved (Active delta) ->
  exists r,
    prop_get id (loaded_states rt config id strategy) = Some r
    /\ 1000 * delta - 500 <= timeNow - created r < 1000 * delta + 500
    /\ delta <= Math_round_div1000 (minTimeBetweenTriggers config).
Proof.
  intros Hactive.
  destruct (checkEventState_spec rt config id strategy timeNow w) as (w1 & _ & Hc).
  cbv zeta in Hc. rewrite Hc in Hactive. clear Hc.
  unfold recently_triggered, event_delta in Hactive.
  destruct (prop_get id (loaded_states rt config id strategy)) as [r|];
    [|destruct (storage_save rt _ _); discriminate Hactive].
  exists r. split; [reflexivity|].
  destruct (negb (Z.eqb (timeNow - created r) 0)
            && Z.ltb (timeNow - created r) (minTimeBetweenTriggers config)) eqn:Hcond;
    [|destruct (storage_save rt _ _); discriminate Hactive].
  cbn [fst default] in Hactive. injection Hactive as <-.
  apply andb_prop in Hcond as [_ Hlt]. apply Z.ltb_lt in Hlt.
  unfold Math_round_div1000.
  pose proof (Z.div_mod (timeNow - created r + 500) 1000 ltac:(lia)) as Hdm.
  pose proof (Z.mod_pos_bound (timeNow - created r + 500) 1000 ltac:(lia)) as Hb.
  split; [lia|]. apply Z.div_le_mono; lia.
Qed.

(** X11. When the stored state is the one that a check at [t0] saved, a
    check at [t1] is active exactly when [t1] differs from [t0] and less
    than the configured minimum has passed: a second trigger in the same
    millisecond is not held back. *)
Theorem checkEventState_after_record (id strategy : string) (t0 t1 : Z)
    (eventStates : JsObject EventState) (w : World) :
  stored_states rt config id strategy
  = inr (prop_set id {| created := t0 |} eventStates) ->
  (exists delta,
      fst (checkEventState rt config id strategy t1 w) = Resolved (Active delta))
  <-> t1 <> t0 /\ t1 - t0 < minTimeBetweenTriggers config.
Proof.
  intros Hstored.
  destruct (checkEventState_spec rt config id strategy t1 w) as (w1 & _ & ->).
  cbv zeta. unfold loaded_states. rewrite Hstored.
  unfold event_delta. rewrite prop_get_set_eq. cbn [recently_triggered created].
  destruct (Z.eqb_spec (t1 - t0) 0) as [Hz|Hz];
    destruct (Z.ltb_spec (t1 - t0) (minTimeBetweenTriggers config)) as [Hlt|Hlt];
    cbn [negb andb fst].
  all: split;
    [ intros [delta H]; try (destruct (storage_save rt _ _); discriminate H); lia
    | intros [Hne Hl]; try lia; eexists; reflexivity ].
Qed.

(** ** More on [launchPagespeedInsights] *)

Lemma adds_ret {A} (a : A) w : adds (ret a) w (Resolved a) [].
Proof. exists w. split; [reflexivity | now rewrite app_nil_r]. Qed.

Lemma adds_writeFile path text w :
  fs_writeFile rt path = None ->
  adds (writeFile rt path text) w (Resolved tt) [FsWriteFile path text].
Proof.
  intros Hok. unfold adds, writeFile, bind. rewrite emit_extend, Hok.
  eexists. split; reflexivity.
Qed.

Lemma adds_load dataset table file metadata w :
  adds (let* response := load rt dataset table file metadata in ret (RetLoad response)) w
    (match bigquery_load rt dataset table file metadata with
     | inl e => Rejected e
     | inr response => Resolved (RetLoad response)
     end)
    [BigqueryLoad dataset table file metadata].
Proof.
  unfold adds, load, bind, ret, throw. rewrite emit_extend.
  destruct (bigquery_load rt dataset table file metadata);
    eexists; split; reflexivity.
Qed.

Lemma adds_launch_rejected event w e evs :
  adds (launch_body rt config event) w (Rejected e) evs ->
  adds (launchPagespeedInsights rt config event) w (Resolved RetUndefined)
    (evs ++ [ConsoleError (ArgError e)])%list.
Proof.
  intros (w' & Hb & Ht). eexists. split.
  - exact (launch_logs_error_of_body rt config event w e w' Hb).
  - cbn [extend trace]. now rewrite Ht, <- List.app_assoc.
Qed.

Lemma adds_launch_promise event w p r evs1 evs2 :
  adds (launch_body rt config event) w (Resolved (ReturnPromise p)) evs1 ->
  (forall w', adds p w' r evs2) ->
  adds (launchPagespeedInsights rt config event) w r (evs1 ++ evs2)%list.
Proof.
  intros (w' & Hb & Ht) Hp. destruct (Hp w') as (w'' & Hp' & Ht').
  exists w''. unfold launchPagespeedInsights, bind, try_catch. rewrite Hb.
  split; [exact Hp'|]. now rewrite Ht', Ht, <- List.app_assoc.
Qed.

Lemma first_rejection_all_saved obj id formats :
  (forall file, storage_save rt (gcs_bucketName config) file = None) ->
  first_rejection (map (report_settles rt config obj id) formats) = None.
Proof.
  intros Hsave. induction formats as [|fileType formats IH]; [reflexivity|].
  cbn [map first_rejection]. unfold report_settles at 1. rewrite Hsave.
  destruct (String.eqb fileType "json"); exact IH.
Qed.

(** The body of the [try] for a configured source whose check resolves
    inactive, up to the call of the fetcher. *)
Lemma launch_body_inactive event w src rest :
  trigger_message rt event <> "all" ->
  List.filter (fun obj => String.eqb (Source.id obj) (trigger_message rt event))
    (source config) = src :: rest ->
  fst (checkEventState rt config (Source.id src) (Source.strategy src)
         (Date_getTime rt) w) = Resolved Inactive ->
  exists continuation,
    (forall r evs,
        (forall w', adds continuation w' r evs) ->
        adds (launch_body rt config event) w r
          ([ConsoleLog (Source.id src ++ ": Received message to start with URL "
                          ++ Source.url src ++ " on " ++ Source.strategy src);
            download_effect config (Source.id src) (Source.strategy src);
            state_save_effect config (Source.id src) (Source.strategy src)
              (Date_getTime rt)
              (loaded_states rt config (Source.id src) (Source.strategy src))]
           ++ evs)%list)
    /\ continuation
       = (let* json := getPagespeedInsightsReport rt (Source.id src)
                         (Source.strategy src) (Source.url src) None in
          writeLogAndReportsToStorage rt config json (Source.id src) >>
          writeFile rt (scratch_file rt)
            (toNdjson (JObj (prop_set "job_id" (JStr (uuidv1 rt)) json))) >>
          log (Source.id src ++ ": BigQuery job with ID " ++ uuidv1 rt
                 ++ " starting for " ++ Source.url src ++ " on " ++ Source.strategy src) >>
          ret (ReturnPromise
                 (let* response := load rt (datasetId config) "reports"
                                     (scratch_file rt) (load_metadata rt) in
                  ret (RetLoad response)))).
Proof.
  unfold trigger_message. intros Hall Hf Hin.
  pose proof (filter_head_includes config _ _ _ Hf) as Hinc.
  unfold configured_ids in Hinc. apply String.eqb_neq in Hall.
  apply checkEventState_inactive_inv in Hin as [Hrec Hsave].
  eexists. split; [|reflexivity].
  intros r evs Hk.
  unfold launch_body. rewrite Hall, Hinc, Hf. cbn [negb andb].
  apply adds_bind_resolved
    with (a := tt) (evs1 := [ConsoleLog _]) (evs2 := ([_; _] ++ evs)%list);
    [apply adds_log|]. intros w1.
  apply adds_bind_resolved with (a := Inactive) (evs1 := [_; _]) (evs2 := evs);
    [|exact Hk].
  pose proof (checkEventState_inactive_adds (Source.id src) (Source.strategy src)
                (Date_getTime rt) w1 Hrec) as Hc.
  rewrite Hsave in Hc. exact Hc.
Qed.

(** X12. For a configured source whose check resolves inactive, when the
    audit, the saves and the scratch file succeed, the invocation makes,
    in this order: the state save, the audit request, the report saves and
    the log save, the scratch file, the load job; it settles as the load
    job does. The audit is requested with the strategy as url and the url
    as strategy. The scratch file is one line: the report with [job_id]
    set to the id of the load job, which reads that very file; the objects
    saved before hold the report without [job_id]. *)
Theorem launch_fetches_stores_loads (event : PubsubEvent) (w : World)
    (src : Source.t) (rest : list Source.t) (raw : Obj) :
  trigger_message rt event <> "all" ->
  List.filter (fun obj => String.eqb (Source.id obj) (trigger_message rt event))
    (source config) = src :: rest ->
  fst (checkEventState rt config (Source.id src) (Source.strategy src)
         (Date_getTime rt) w) = Resolved Inactive ->
  pagespeed_runpagespeed rt (Source.strategy src) (Source.url src) [] = inr raw ->
  (forall file, storage_save rt (gcs_bucketName config) file = None) ->
  fs_writeFile rt (scratch_file rt) = None ->
  let report :=
    annotated (Source.id src) (Source.strategy src) (Source.url src) raw in
  let record := prop_set "job_id" (JStr (uuidv1 rt)) report in
  run (launchPagespeedInsights rt config event) w
  = (match bigquery_load rt (datasetId config) "reports" (scratch_file rt)
             (load_metadata rt) with
     | inl e => Rejected e
     | inr response => Resolved (RetLoad response)
     end,
     ([ConsoleLog (Source.id src ++ ": Received message to start with URL "
                     ++ Source.url src ++ " on " ++ Source.strategy src);
       download_effect config (Source.id src) (Source.strategy src);
       state_save_effect config (Source.id src) (Source.strategy src)
         (Date_getTime rt)
         (loaded_states rt config (Source.id src) (Source.strategy src))]
      ++ [ConsoleLog (Source.id src ++ ": Requesting Pagespeed Insight report for "
                        ++ Source.strategy src ++ " on " ++ Source.url src);
          RunPagespeed (Source.strategy src) (Source.url src) [];
          ConsoleLog (Source.id src ++ ": Pagespeed Insight report received for "
                        ++ Source.strategy src ++ " on " ++ Source.url src)]
      ++ flat_map (report_effects config report (Source.id src))
           (default [] (outputFormat config))
      ++ log_effects config report (Source.id src)
      ++ [FsWriteFile (scratch_file rt) (toNdjson (JObj record));
          ConsoleLog (Source.id src ++ ": BigQuery job with ID " ++ uuidv1 rt
                        ++ " starting for " ++ Source.url src ++ " on "
                        ++ Source.strategy src);
          BigqueryLoad (datasetId config) "reports" (scratch_file rt)
            (load_metadata rt)])%list)
  /\ count_nl (toNdjson (JObj record)) = 1%nat
  /\ prop_get "job_id" record = Some (JStr (uuidv1 rt))
  /\ prop_get "job_id" report = prop_get "job_id" raw.
Proof.
  intros Hall Hf Hin Hpsi Hsave Hwrite report record.
  destruct (launch_body_inactive event w src rest Hall Hf Hin)
    as (continuation & Hbody & ->).
  split; [|split; [|split]].
  - apply adds_run. eapply adds_eq.
    + eapply adds_launch_promise; [|intros w'; apply adds_load].
      apply Hbody. intros w1.
      pose proof (getPagespeedInsightsReport_adds (Source.id src)
                    (Source.strategy src) (Source.url src) None w1) as Hfetch.
      cbn [default] in Hfetch. rewrite Hpsi in Hfetch.
      eapply adds_bind_resolved; [exact Hfetch|]. intros w2. fold report.
      pose proof (writeLogAndReportsToStorage_adds report (Source.id src) w2) as Hw.
      cbv zeta in Hw. rewrite (first_rejection_all_saved _ _ _ Hsave), Hsave in Hw.
      eapply adds_bind_resolved; [exact Hw|]. intros w3.
      eapply adds_bind_resolved; [apply (adds_writeFile _ _ _ Hwrite)|]. intros w4.
      eapply adds_bind_resolved; [apply adds_log|]. intros w5.
      apply adds_ret.
    + fold record. rewrite <- !List.app_assoc. reflexivity.
  - apply (proj1 (toNdjson_line_count (JObj record))).
  - apply prop_get_set_eq.
  - unfold report, annotated. now rewrite !prop_get_set_ne by discriminate.
Qed.

(** X13. For a configured source whose check resolves inactive, when the
    audit API rejects, the invocation logs the error and resolves; the
    state in which the source is created now was saved before the audit
    was requested and stays saved, and nothing else is written: no report,
    no log, no scratch file, no load job. *)
Theorem launch_fetch_failure_after_state_save (event : PubsubEvent) (w : World)
    (src : Source.t) (rest : list Source.t) (e : Error) :
  trigger_message rt event <> "all" ->
  List.filter (fun obj => String.eqb (Source.id obj) (trigger_message rt event))
    (source config) = src :: rest ->
  fst (checkEventState rt config (Source.id src) (Source.strategy src)
         (Date_getTime rt) w) = Resolved Inactive ->
  pagespeed_runpagespeed rt (Source.strategy src) (Source.url src) [] = inl e ->
  run (launchPagespeedInsights rt config event) w
  = (Resolved RetUndefined,
     [ConsoleLog (Source.id src ++ ": Received message to start with URL "
                    ++ Source.url src ++ " on " ++ Source.strategy src);
      download_effect config (Source.id src) (Source.strategy src);
      state_save_effect config (Source.id src) (Source.strategy src)
        (Date_getTime rt)
        (loaded_states rt config (Source.id src) (Source.strategy src));
      ConsoleLog (Source.id src ++ ": Requesting Pagespeed Insight report for "
                    ++ Source.strategy src ++ " on " ++ Source.url src);
      RunPagespeed (Source.strategy src) (Source.url src) [];
      ConsoleError (ArgError e)]).
Proof.
  intros Hall Hf Hin Hpsi.
  destruct (launch_body_inactive event w src rest Hall Hf Hin)
    as (continuation & Hbody & ->).
  apply adds_run. eapply adds_eq.
  - apply adds_launch_rejected. apply Hbody. intros w1.
    apply adds_bind_rejected.
    pose proof (getPagespeedInsightsReport_adds (Source.id src)
                  (Source.strategy src) (Source.url src) None w1) as Hfetch.
    cbn [default] in Hfetch. rewrite Hpsi in Hfetch. exact Hfetch.
  - reflexivity.
Qed.

(** X14. For a configured source whose check is not active, when the save
    of the state rejects, the invocation logs the error and resolves
    without requesting the audit. *)
Theorem launch_state_save_failure (event : PubsubEvent) (w : World)
    (src : Source.t) (rest : list Source.t) (e : Error) :
  trigger_message rt event <> "all" ->
  List.filter (fun obj => String.eqb (Source.id obj) (trigger_message rt event))
    (source config) = src :: rest ->
  fst (checkEventState rt config (Source.id src) (Source.strategy src)
         (Date_getTime rt) w) = Rejected e ->
  run (launchPagespeedInsights rt config event) w
  = (Resolved RetUndefined,
     [ConsoleLog (Source.id src ++ ": Received message to start with URL "
                    ++ Source.url src ++ " on " ++ Source.strategy src);
      download_effect config (Source.id src) (Source.strategy src);
      state_save_effect config (Source.id src) (Source.strategy src)
        (Date_getTime rt)
        (loaded_states rt config (Source.id src) (Source.strategy src));
      ConsoleError (ArgError e)]).
Proof.
  unfold trigger_message. intros Hall Hf Hrej.
  pose proof (filter_head_includes config _ _ _ Hf) as Hinc.
  unfold configured_ids in Hinc. apply String.eqb_neq in Hall.
  assert (Hrec : recently_triggered config
                   (event_delta (Source.id src) (Date_getTime rt)
                      (loaded_states rt config (Source.id src) (Source.strategy src)))
                 = false
                 /\ storage_save rt (gcs_bucketName config)
                      (state_file (Source.id src) (Source.strategy src)) = Some e).
  { destruct (checkEventState_spec rt config (Source.id src) (Source.strategy src)
                (Date_getTime rt) w) as (w1 & _ & Hc).
    cbv zeta in Hc. rewrite Hc in Hrej.
    destruct (recently_triggered config _); [discriminate Hrej|].
    cbn [fst] in Hrej. destruct (storage_save rt _ _); [|discriminate Hrej].
    injection Hrej as ->. now split. }
  destruct Hrec as [Hrec Hsave].
  apply adds_run. eapply adds_eq.
  - apply adds_launch_rejected.
    unfold launch_body. rewrite Hall, Hinc, Hf. cbn [negb andb].
    eapply adds_bind_resolved; [apply adds_log|]. intros w1.
    apply adds_bind_rejected.
    pose proof (checkEventState_inactive_adds (Source.id src) (Source.strategy src)
                  (Date_getTime rt) w1 Hrec) as Hc.
    rewrite Hsave in Hc. exact Hc.
  - reflexivity.
Qed.


End MoreProperties.

(** ** The further properties on the stubbed services *)

Lemma getPagespeedInsightsReport_settles_witness :
  run (getPagespeedInsightsReport (psi_failing_runtime 0 0 unavailable)
         "googlesearch" "https://www.google.com/" "mobile" (Some ["performance"]))
    world0
  = (Rejected unavailable,
     [ConsoleLog ("googlesearch: Requesting Pagespeed Insight report for "
                    ++ "https://www.google.com/ on mobile");
      RunPagespeed "https://www.google.com/" "mobile" ["performance"]])
  /\ exists psi,
       fst (run (getPagespeedInsightsReport (ok_runtime 0 0) "googlesearch"
                   "https://www.google.com/" "mobile" (Some ["performance"])) world0)
       = Resolved psi
       /\ prop_get "url" psi = Some (JStr "https://www.google.com/")
       /\ prop_get "analysisUTCTimestamp" psi = Some (JStr "2018-12-17T10:56:56.420Z").
Proof.
  split.
  - exact (proj1 (getPagespeedInsightsReport_settles
                    (psi_failing_runtime 0 0 unavailable) "googlesearch"
                    "https://www.google.com/" "mobile" (Some ["performance"]) world0)
             unavailable eq_refl).
  - destruct (proj2 (getPagespeedInsightsReport_settles (ok_runtime 0 0)
                       "googlesearch" "https://www.google.com/" "mobile"
                       (Some ["performance"]) world0) mockPsi eq_refl)
      as (psi & Hrun & _ & Hurl & _ & Hframe).
    exists psi. split; [now rewrite Hrun|]. split; [exact Hurl|].
    rewrite Hframe by discriminate. reflexivity.
Defined.


Lemma writeLogAndReportsToStorage_placeholders_witness :
  saved (snd (run (writeLogAndReportsToStorage (ok_runtime 0 0) placeholder_config
                     mockObj "ebay") world0))
  = [log_object placeholder_config mockObj "ebay"].
Proof.
  assert (H : Forall (fun fileType => fileType <> "json")
                (default [] (outputFormat placeholder_config))).
  { repeat constructor; discriminate. }
  exact (f_equal (fun r => saved (snd r))
           (writeLogAndReportsToStorage_placeholders (ok_runtime 0 0)
              placeholder_config mockObj "ebay" world0 H)).
Defined.

Lemma writeLogAndReportsToStorage_report_failure_witness :
  fst (run (writeLogAndReportsToStorage
              (stub_runtime 0 0 None (Some unavailable) None None) test_config
              mockObj "ebay") world0)
  = Rejected unavailable.
Proof.
  assert (H : "json" ∈ default [] (outputFormat test_config)) by left.
  exact (f_equal fst
           (proj1 (writeLogAndReportsToStorage_report_failure
                     (stub_runtime 0 0 None (Some unavailable) None None) test_config
                     mockObj "ebay" world0 unavailable eq_refl H))).
Defined.

Lemma writeLogAndReportsToStorage_one_report_per_json_witness :
  saved (snd (run (writeLogAndReportsToStorage (ok_runtime 0 0) test_config
                     mockObj "ebay") world0))
  = [report_object test_config mockObj "ebay"; log_object test_config mockObj "ebay"].
Proof.
  exact (writeLogAndReportsToStorage_one_report_per_json (ok_runtime 0 0) test_config
           mockObj "ebay" world0 eq_refl).
Defined.

Lemma checkEventState_inactive_rewrites_witness :
  exists eventStates,
    saved (snd (run (checkEventState (ok_runtime 400000 1000) test_config "ebay"
                       "desktop" 400000) world0))
    = [("pagespeedinsights-reports", "ebay/desktop/state.json",
        BodyText (JSON_stringify_spaced (eventStates_json eventStates)))]
    /\ prop_get "ebay" eventStates = Some {| created := 400000 |}
    /\ prop_get "googlesearch" eventStates = Some {| created := 1000 |}.
Proof.
  destruct (checkEventState_inactive_rewrites (ok_runtime 400000 1000) test_config
              "ebay" "desktop" 400000 world0 eq_refl)
    as (eventStates & Hsaved & Hid & Hframe).
  exists eventStates. split; [exact Hsaved|]. split; [exact Hid|].
  rewrite Hframe by discriminate. reflexivity.
Defined.

Lemma checkEventState_delta_bounds_witness :
  exists r,
    prop_get "googlesearch"
      (loaded_states (ok_runtime 300599 1000) test_config "googlesearch" "mobile")
    = Some r
    /\ 1000 * 300 - 500 <= 300599 - created r < 1000 * 300 + 500
    /\ 300 <= Math_round_div1000 (minTimeBetweenTriggers test_config).
Proof.
  exact (checkEventState_delta_bounds (ok_runtime 300599 1000) test_config
           "googlesearch" "mobile" 300599 world0 300 eq_refl).
Defined.

Lemma checkEventState_after_record_witness :
  (exists delta,
      fst (checkEventState (ok_runtime 11000 1000) test_config "googlesearch"
             "mobile" 11000 world0) = Resolved (Active delta))
  /\ ~ (exists delta,
           fst (checkEventState (ok_runtime 1000 1000) test_config "googlesearch"
                  "mobile" 1000 world0) = Resolved (Active delta)).
Proof.
  split.
  - apply (proj2 (checkEventState_after_record (ok_runtime 11000 1000) test_config
                    "googlesearch" "mobile" 1000 11000 [] world0 eq_refl)).
    split; [discriminate | reflexivity].
  - intros H.
    apply (proj1 (checkEventState_after_record (ok_runtime 1000 1000) test_config
                    "googlesearch" "mobile" 1000 1000 [] world0 eq_refl)) in H.
    destruct H as [Hne _]. now apply Hne.
Defined.

Lemma launch_fetches_stores_loads_witness :
  fst (run (launchPagespeedInsights (ok_runtime 1000000 0) test_config
              {| data := "googlesearch" |}) world0)
  = Resolved (RetLoad JNull).
Proof.
  assert (H1 : trigger_message (ok_runtime 1000000 0) {| data := "googlesearch" |}
               <> "all") by discriminate.
  exact (f_equal fst
           (proj1 (launch_fetches_stores_loads (ok_runtime 1000000 0) test_config
                     {| data := "googlesearch" |} world0 googlesearch [] mockPsi
                     H1 eq_refl eq_refl eq_refl (fun _ => eq_refl) eq_refl))).
Defined.

Lemma launch_fetch_failure_after_state_save_witness :
  saved (snd (run (launchPagespeedInsights
                     (psi_failing_runtime 1000000 0 unavailable) test_config
                     {| data := "googlesearch" |}) world0))
  = [("pagespeedinsights-reports", "googlesearch/mobile/state.json",
      BodyText (JSON_stringify_spaced
                  (eventStates_json [("googlesearch", {| created := 1000000 |})])))].
Proof.
  assert (H1 : trigger_message (psi_failing_runtime 1000000 0 unavailable)
                 {| data := "googlesearch" |} <> "all") by discriminate.
  exact (f_equal (fun r => saved (snd r))
           (launch_fetch_failure_after_state_save
              (psi_failing_runtime 1000000 0 unavailable) test_config
              {| data := "googlesearch" |} world0 googlesearch [] unavailable
              H1 eq_refl eq_refl eq_refl)).
Defined.

Lemma launch_state_save_failure_witness :
  error_logs (snd (run (launchPagespeedInsights
                          (stub_runtime 1000 0 None (Some unavailable) None None)
                          test_config {| data := "ebay" |}) world0))
  = [ArgError unavailable].
Proof.
  assert (H1 : trigger_message (stub_runtime 1000 0 None (Some unavailable) None None)
                 {| data := "ebay" |} <> "all") by discriminate.
  exact (f_equal (fun r => error_logs (snd r))
           (launch_state_save_failure
              (stub_runtime 1000 0 None (Some unavailable) None None) test_config
              {| data := "ebay" |} world0 ebay [] unavailable H1 eq_refl eq_refl)).
Defined.

